(** * Keep-to-Docs journal transfer: a shallow embedding of [lambda_function.py]

    The program fetches labelled notes from a notes service, appends them to
    a running document under year / month / day headings, and deletes them
    from the notes service.  Pure helpers are embedded as total functions or
    functions into [result]; the orchestration code ([notesToGoogleDoc],
    [deleteNotes], [main], [lambda_handler]) runs in a state-and-exception
    monad over a [World] that records the two external services. *)

From Stdlib Require Import ZArith List String Ascii Bool Lia Sorted.
From Stdlib Require Import DecimalString.
From Stdlib Require Import Permutation.
Import ListNotations.

Local Open Scope string_scope.
Local Open Scope Z_scope.

(** ** Python exceptions and results *)

(** The exception classes the embedded code can raise.  All of them derive
    from Python's [Exception]; [ServiceError] stands for an error raised by
    one of the two client libraries (a failed login, an HTTP error, ...). *)
Inductive exn : Type :=
| TypeError
| ValueError
| KeyError
| IndexError
| OverflowError
| ServiceError (what : string).

Inductive result (A : Type) : Type :=
| Ok (a : A)
| Raise (e : exn).

Arguments Ok {A} a.
Arguments Raise {A} e.

Definition rbind {A B} (r : result A) (k : A -> result B) : result B :=
  match r with
  | Ok a => k a
  | Raise e => Raise e
  end.

Declare Scope result_scope.
Delimit Scope result_scope with result.
Notation "'let?' x ':=' r 'in' k" := (rbind r (fun x => k))
  (at level 10, x pattern, r at level 100, k at level 200) : result_scope.
Local Open Scope result_scope.

(** ** Python built-ins used by the program *)

Module Py.

(** [str(n)] for an int. *)
Definition str (n : Z) : string := NilZero.string_of_int (Z.to_int n).

(** [len(s)] for a str (strings are modelled as sequences of 8-bit
    characters). *)
Definition len (s : string) : Z := Z.of_nat (String.length s).

Arguments str : simpl never.
Arguments len : simpl never.

(** [c.isdigit()] on the ASCII range. *)
Definition isdigit (c : ascii) : bool :=
  let n := nat_of_ascii c in (48 <=? n)%nat && (n <=? 57)%nat.

(** [c.isspace()] on the ASCII range: TAB, LF, VT, FF, CR, FS, GS, RS, US
    and the space. *)
Definition isspace (c : ascii) : bool :=
  let n := nat_of_ascii c in
  ((9 <=? n)%nat && (n <=? 13)%nat)
  || ((28 <=? n)%nat && (n <=? 32)%nat).

Fixpoint lstrip (s : string) : string :=
  match s with
  | String c r => if isspace c then lstrip r else s
  | EmptyString => EmptyString
  end.

Fixpoint rstrip (s : string) : string :=
  match s with
  | String c r =>
      match rstrip r with
      | EmptyString => if isspace c then EmptyString else String c EmptyString
      | r' => String c r'
      end
  | EmptyString => EmptyString
  end.

(** [s.strip()] *)
Definition strip (s : string) : string := rstrip (lstrip s).

(** [[c for c in s if p(c)]] joined back into a str. *)
Fixpoint filter_chars (p : ascii -> bool) (s : string) : string :=
  match s with
  | String c r => if p c then String c (filter_chars p r) else filter_chars p r
  | EmptyString => EmptyString
  end.

Definition digit_value (c : ascii) : Z := Z.of_nat (nat_of_ascii c) - 48.

(** The digit part of an int literal: decimal digits, single underscores
    allowed between digits.  [need_digit] holds at the start and right
    after an underscore. *)
Fixpoint parse_digits (s : string) (acc : Z) (need_digit : bool) : option Z :=
  match s with
  | EmptyString => if need_digit then None else Some acc
  | String c r =>
      if isdigit c then parse_digits r (10 * acc + digit_value c) false
      else if Ascii.eqb c "_"%char then
        if need_digit then None else parse_digits r acc true
      else None
  end.

(** [int(s)] for a str: surrounding whitespace is ignored, one optional
    sign, then the digits; anything else is a [ValueError]. *)
Definition int_of_str (s : string) : result Z :=
  let body := strip s in
  let parsed :=
    match body with
    | String c r =>
        if Ascii.eqb c "-"%char then option_map Z.opp (parse_digits r 0 true)
        else if Ascii.eqb c "+"%char then parse_digits r 0 true
        else parse_digits body 0 true
    | EmptyString => None
    end in
  match parsed with
  | Some n => Ok n
  | None => Raise ValueError
  end.

(** [int(x)] where [x] is a str or [None]: [int(None)] is a [TypeError]. *)
Definition int (x : option string) : result Z :=
  match x with
  | Some s => int_of_str s
  | None => Raise TypeError
  end.

(** [l[i]] on a list: negative indices count from the end, anything out
    of range is an [IndexError]. *)
Definition getitem {A} (l : list A) (i : Z) : result A :=
  let n := Z.of_nat (List.length l) in
  let j := if i <? 0 then i + n else i in
  if (j <? 0) || (n <=? j) then Raise IndexError
  else match nth_error l (Z.to_nat j) with
       | Some a => Ok a
       | None => Raise IndexError
       end.

Fixpoint index_from (l : list string) (x : string) (i : Z) : result Z :=
  match l with
  | [] => Raise ValueError
  | y :: r => if String.eqb y x then Ok i else index_from r x (i + 1)
  end.

(** [l.index(x)] on a list of str, where [x] is a str or [None]; [None]
    is equal to no str, so it is never found. *)
Definition index (l : list string) (x : option string) : result Z :=
  match x with
  | Some s => index_from l s 0
  | None => Raise ValueError
  end.

(** [sorted(l, key=...)]: Python's sort is stable, and so is this
    insertion sort, so the two agree on every input. *)
Fixpoint insert_by {A} (key : A -> Z) (x : A) (l : list A) : list A :=
  match l with
  | [] => [x]
  | y :: r => if key y <=? key x then y :: insert_by key x r else x :: l
  end.

Definition sorted {A} (key : A -> Z) (l : list A) : list A :=
  fold_left (fun acc x => insert_by key x acc) l [].

End Py.

(** ** The module-level tables *)

(** The global [months], assigned in [main]. *)
Definition months : list string :=
  ["FILLER"; "January"; "February"; "March"; "April"; "May"; "June";
   "July"; "August"; "September"; "October"; "November"; "December"].

(** The local [weekDays] of [notesToGoogleDoc]. *)
Definition weekDays : list string :=
  ["Monday"; "Tuesday"; "Wednesday"; "Thursday"; "Friday"; "Saturday";
   "Sunday"].

(** ** [ordinal] *)

Definition ordinal (n : Z) : result string :=
  let? suffix := Py.getitem ["th"; "st"; "nd"; "rd"; "th"] (Z.min (n mod 10) 4) in
  let suffix := if (11 <=? n) && (n <=? 13) then "th" else suffix in
  Ok (Py.str n ++ suffix).

(** The suffix rule as the specification words it. *)
Definition ordinal_suffix_spec (n : Z) : string :=
  if (n =? 11) || (n =? 12) || (n =? 13) then "th"
  else if n mod 10 =? 1 then "st"
  else if n mod 10 =? 2 then "nd"
  else if n mod 10 =? 3 then "rd"
  else "th".

(** ** Dates and times

    The parts of Python's [datetime] the program relies on.  A note's
    creation time is an instant, kept as microseconds since the epoch (UTC);
    [astimezone] turns it into the wall-clock fields at a fixed offset. *)

Module Datetime.

Record datetime : Type := mk_datetime {
  year : Z;
  month : Z;
  day : Z;
  hour : Z;
  minute : Z;
  second : Z;
  toordinal : Z  (* proleptic Gregorian day number, 0001-01-01 is day 1 *)
}.

(** [d.weekday()]: Monday is 0. *)
Definition weekday (d : datetime) : Z := (toordinal d + 6) mod 7.

Definition days_before_month : list Z :=
  [0; 0; 31; 59; 90; 120; 151; 181; 212; 243; 273; 304; 334].

Definition days_in_month : list Z :=
  [0; 31; 28; 31; 30; 31; 30; 31; 31; 30; 31; 30; 31].

Definition DI400Y : Z := 146097.
Definition DI100Y : Z := 36524.
Definition DI4Y : Z := 1461.

Definition b2z (b : bool) : Z := if b then 1 else 0.

(** [_ord2ymd] of the standard library: day number to (year, month, day). *)
Definition ord2ymd (ord : Z) : Z * Z * Z :=
  let n := ord - 1 in
  let n400 := n / DI400Y in
  let n := n mod DI400Y in
  let year := n400 * 400 + 1 in
  let n100 := n / DI100Y in
  let n := n mod DI100Y in
  let n4 := n / DI4Y in
  let n := n mod DI4Y in
  let n1 := n / 365 in
  let n := n mod 365 in
  let year := year + n100 * 100 + n4 * 4 + n1 in
  if (n1 =? 4) || (n100 =? 4) then (year - 1, 12, 31)
  else
    let leapyear := (n1 =? 3) && (negb (n4 =? 24) || (n100 =? 3)) in
    let month := Z.shiftr (n + 50) 5 in
    let preceding :=
      nth (Z.to_nat month) days_before_month 0
      + b2z ((2 <? month) && leapyear) in
    if n <? preceding then
      let month := month - 1 in
      let preceding :=
        preceding
        - (nth (Z.to_nat month) days_in_month 0
           + b2z ((month =? 2) && leapyear)) in
      (year, month, n - preceding + 1)
    else (year, month, n - preceding + 1).

(** Day number of 1970-01-01. *)
Definition epoch_ordinal : Z := 719163.

(** [created.astimezone(tz=timezone(timedelta(hours=tz_hours)))].
    [timezone] refuses an offset of a day or more, and a result outside
    the years 1..9999 overflows. *)
Definition astimezone (created_us : Z) (tz_hours : Z) : result datetime :=
  if (tz_hours <=? -24) || (24 <=? tz_hours) then Raise ValueError
  else
    let secs := created_us / 1000000 + tz_hours * 3600 in
    let ord := secs / 86400 + epoch_ordinal in
    let sod := secs mod 86400 in
    let '(y, m, d) := ord2ymd ord in
    if (y <? 1) || (9999 <? y) then Raise OverflowError
    else Ok (mk_datetime y m d (sod / 3600) ((sod mod 3600) / 60)
                         (sod mod 60) ord).

End Datetime.

Import Datetime.

(** ** [getTime] *)

Definition getTime (dt : datetime) : string :=
  let '(hour12, suffix) :=
    if hour dt =? 0 then (12, "am")
    else if hour dt <? 12 then (hour dt, "am")
    else if hour dt =? 12 then (hour dt, "pm")
    else (hour dt mod 12, "pm") in
  let minute_str :=
    if 10 <=? minute dt then Py.str (minute dt)
    else "0" ++ Py.str (minute dt) in
  Py.str hour12 ++ ":" ++ minute_str ++ suffix.

(** The 12-hour clock as the specification words it. *)
Definition clock12_hour_spec (h : Z) : Z :=
  if h =? 0 then 12 else if h <=? 12 then h else h mod 12.

Definition clock12_suffix_spec (h : Z) : string :=
  if h <? 12 then "am" else "pm".

(** ** Configuration, notes and documents *)

(** The keys of [config.json] the program reads. *)
Record Config : Type := mk_config {
  USERNAME : string;
  PASSWORD : string;
  KEEP_LABEL : string;
  CREDENTIALS_FILE : string;
  DOCUMENT_ID : string;
  YEAR_HEADER_NUM : string;
  MONTH_HEADER_NUM : string;
  DAY_HEADER_NUM : string;
  TITLE_HEADER_NUM : string;
  TIME_HEADER_NUM : string;
  TZ_ADJUSTMENT : Z
}.

(** A Keep note: the fields the program reads. *)
Record Note : Type := mk_note {
  note_id : string;
  title : string;
  text : string;
  created : Z;          (* [timestamps.created], microseconds since the epoch *)
  labels : list string
}.

(** One entry of a paragraph's [elements]; [textRun] is absent for inline
    objects, page breaks and the like. *)
Record ParagraphElement : Type := mk_element {
  textRun : option string   (* [element['textRun']['content']] *)
}.

Record Paragraph : Type := mk_paragraph {
  namedStyleType : string;
  elements : list ParagraphElement
}.

(** One entry of [doc['body']['content']]; [paragraph] is absent for
    section breaks, tables and the like. *)
Record StructuralElement : Type := mk_structural {
  paragraph : option Paragraph;
  elt_endIndex : Z
}.

Record Document : Type := mk_document {
  content : list StructuralElement
}.

(** ** Reading the last date back from the document *)

(** The loop of [getLastHeader], over the content already reversed. *)
Fixpoint getLastHeader_scan (style : string) (rev_content : list StructuralElement)
  : result (option string) :=
  match rev_content with
  | [] => Ok None
  | c :: rest =>
      match paragraph c with
      | Some p =>
          if String.eqb (namedStyleType p) style then
            let? el := Py.getitem (elements p) 0 in
            match textRun el with
            | Some s => Ok (Some (Py.strip s))
            | None => Raise KeyError
            end
          else getLastHeader_scan style rest
      | None => getLastHeader_scan style rest
      end
  end.

Definition getLastHeader (doc : Document) (headerNum : string)
  : result (option string) :=
  getLastHeader_scan ("HEADING_" ++ headerNum) (rev (content doc)).

(** [''.join([char for char in x if char.isdigit()])]; iterating [None]
    is a [TypeError]. *)
Definition digits_of (x : option string) : result string :=
  match x with
  | Some s => Ok (Py.filter_chars Py.isdigit s)
  | None => Raise TypeError
  end.

Definition getLastDate (config : Config) (doc : Document) : result (Z * Z * Z) :=
  let? yh := getLastHeader doc (YEAR_HEADER_NUM config) in
  let? lastYear := Py.int yh in
  let? mh := getLastHeader doc (MONTH_HEADER_NUM config) in
  let? lastMonth := Py.index months mh in
  let? dh := getLastHeader doc (DAY_HEADER_NUM config) in
  let? ds := digits_of dh in
  let? lastDay := Py.int_of_str ds in
  Ok (lastYear, lastMonth, lastDay).

Definition getEndIndex (doc : Document) : result Z :=
  let? last := Py.getitem (content doc) (-1) in
  Ok (elt_endIndex last).

(** ** Building the batch *)

(** The two kinds of request the program sends to [batchUpdate]. *)
Inductive Request : Type :=
| insertText (index : Z) (txt : string)
| updateParagraphStyle (startIndex endIndex : Z) (style : string).

(** The line feed put in front of every inserted text. *)
Definition LF : string := String (ascii_of_nat 10) EmptyString.

(** [addText] extends the caller's request list in place and returns the
    new end index; here the extended list is returned next to it. *)
Definition addText (text : string) (endIndex : Z) (namedStyleType : string)
    (requests : list Request) : Z * list Request :=
  let newEndIndex := endIndex + Py.len text + 1 in
  (newEndIndex,
   (requests ++ [ insertText (endIndex - 1) (LF ++ text);
                  updateParagraphStyle endIndex newEndIndex namedStyleType ])%list).

(** The loop variables [lastYear], [lastMonth], [lastDay] and [endIndex] of
    [notesToGoogleDoc].  They start out as [None] together and are assigned
    together, so the loop carries an [option Cursor]. *)
Record Cursor : Type := mk_cursor {
  lastYear : Z;
  lastMonth : Z;
  lastDay : Z;
  endIndex : Z
}.

Definition set_endIndex (c : Cursor) (e : Z) : Cursor :=
  mk_cursor (lastYear c) (lastMonth c) (lastDay c) e.

Definition loadCursor (config : Config) (doc : Document) : result Cursor :=
  let? (y, m, d) := getLastDate config doc in
  let? e := getEndIndex doc in
  Ok (mk_cursor y m d e).

(** [if not endIndex: ...]: [not] holds of [None] and of [0]. *)
Definition assignCursor (config : Config) (doc : Document)
    (st : option Cursor) : result Cursor :=
  match st with
  | None => loadCursor config doc
  | Some c => if endIndex c =? 0 then loadCursor config doc else Ok c
  end.

Definition yearHeading (config : Config) (tc : datetime)
    (c : Cursor) (requests : list Request) : Cursor * list Request :=
  if negb (year tc =? lastYear c) then
    let '(e, requests) :=
      addText (Py.str (year tc)) (endIndex c)
              ("HEADING_" ++ YEAR_HEADER_NUM config) requests in
    (mk_cursor (year tc) (lastMonth c) (lastDay c) e, requests)
  else (c, requests).

Definition monthHeading (config : Config) (tc : datetime)
    (c : Cursor) (requests : list Request) : result (Cursor * list Request) :=
  if negb (month tc =? lastMonth c) then
    let? name := Py.getitem months (month tc) in
    let '(e, requests) :=
      addText name (endIndex c)
              ("HEADING_" ++ MONTH_HEADER_NUM config) requests in
    Ok (mk_cursor (lastYear c) (month tc) (lastDay c) e, requests)
  else Ok (c, requests).

Definition dayHeading (config : Config) (tc : datetime)
    (c : Cursor) (requests : list Request) : result (Cursor * list Request) :=
  if negb (day tc =? lastDay c) then
    let? weekday := Py.getitem weekDays (weekday tc) in
    let? ord := ordinal (day tc) in
    let '(e, requests) :=
      addText (weekday ++ " " ++ ord) (endIndex c)
              ("HEADING_" ++ DAY_HEADER_NUM config) requests in
    Ok (mk_cursor (lastYear c) (lastMonth c) (day tc) e, requests)
  else Ok (c, requests).

(** The three unconditional insertions: title, time of day, body. *)
Definition noteEntry (config : Config) (tc : datetime) (note : Note)
    (c : Cursor) (requests : list Request) : Cursor * list Request :=
  let '(e, requests) :=
    addText (title note) (endIndex c)
            ("HEADING_" ++ TITLE_HEADER_NUM config) requests in
  let '(e, requests) :=
    addText (getTime tc) e ("HEADING_" ++ TIME_HEADER_NUM config) requests in
  let '(e, requests) := addText (text note) e "NORMAL_TEXT" requests in
  (set_endIndex c e, requests).

(** One iteration of [for note in notes]. *)
Definition noteStep (config : Config) (doc : Document)
    (st : option Cursor * list Request) (note : Note)
  : result (option Cursor * list Request) :=
  let '(cur, requests) := st in
  let? c := assignCursor config doc cur in
  let? timeCreated := astimezone (created note) (TZ_ADJUSTMENT config) in
  let '(c, requests) := yearHeading config timeCreated c requests in
  let? (c, requests) := monthHeading config timeCreated c requests in
  let? (c, requests) := dayHeading config timeCreated c requests in
  let '(c, requests) := noteEntry config timeCreated note c requests in
  Ok (Some c, requests).

(** The whole loop, from a given loop state. *)
Fixpoint processNotes (config : Config) (doc : Document)
    (st : option Cursor * list Request) (notes : list Note)
  : result (option Cursor * list Request) :=
  match notes with
  | [] => Ok st
  | note :: rest =>
      let? st' := noteStep config doc st note in
      processNotes config doc st' rest
  end.

(** The loop as [notesToGoogleDoc] runs it: all four variables [None], an
    empty request list. *)
Definition buildRequests (config : Config) (doc : Document)
    (notes : list Note) : result (option Cursor * list Request) :=
  processNotes config doc (None, []) notes.

(** A chain of [addText] calls, each starting where the previous one
    ended. *)
Fixpoint addTexts (items : list (string * string)) (endIndex : Z)
    (requests : list Request) : Z * list Request :=
  match items with
  | [] => (endIndex, requests)
  | (text, style) :: rest =>
      let '(e, requests) := addText text endIndex style requests in
      addTexts rest e requests
  end.

(** ** Reading a batch *)

(** The ranges restyled by a batch, in order. *)
Fixpoint style_ranges (requests : list Request) : list (Z * Z) :=
  match requests with
  | [] => []
  | insertText _ _ :: rest => style_ranges rest
  | updateParagraphStyle s e _ :: rest => (s, e) :: style_ranges rest
  end.

(** The paragraphs a batch adds, in order: each [insertText] is followed by
    the [updateParagraphStyle] that styles it. *)
Fixpoint paragraphs_of (requests : list Request) : list (string * string) :=
  match requests with
  | insertText _ txt :: updateParagraphStyle _ _ style :: rest =>
      (style, txt) :: paragraphs_of rest
  | _ :: rest => paragraphs_of rest
  | [] => []
  end.

(** Two half-open ranges share no position. *)
Definition ranges_disjoint (r1 r2 : Z * Z) : Prop :=
  snd r1 <= fst r2 \/ snd r2 <= fst r1.

(** ** The two services and the process *)

(** A call made to one of the client libraries, or to the file system. *)
Inductive Call : Type :=
| CallOpenConfig
| CallLogin (username : string)
| CallFind (label : string)
| CallDocsBuild (credentials_file : string)
| CallDocsGet (documentId : string)
| CallBatchUpdate (documentId : string) (requests : list Request)
| CallNoteDelete (id : string)
| CallSync.

(** How the outside world may fail: for each kind of call, the exception it
    raises, if any. *)
Record Faults : Type := mk_faults {
  config_fault : option exn;
  login_fault : option exn;
  find_fault : option exn;
  build_fault : option exn;
  get_fault : option exn;
  batch_fault : option exn;
  sync_fault : option exn
}.

Record World : Type := mk_world {
  keep_notes : list Note;            (* the notes held by the notes service *)
  local_deleted : list string;       (* ids deleted locally, not yet synced *)
  document : Document;               (* the document held by the docs service *)
  batches : list (list Request);     (* the batches applied to it, oldest first *)
  stdout : list string;              (* what was printed *)
  calls : list Call                  (* the calls made, oldest first *)
}.

(** Computations that read and change the world and may raise. *)
Definition M (A : Type) : Type := World -> result A * World.

Definition mret {A} (a : A) : M A := fun w => (Ok a, w).

Definition mraise {A} (e : exn) : M A := fun w => (Raise e, w).

Definition mbind {A B} (m : M A) (k : A -> M B) : M B :=
  fun w =>
    match m w with
    | (Ok a, w') => k a w'
    | (Raise e, w') => (Raise e, w')
    end.

Definition lift {A} (r : result A) : M A := fun w => (r, w).

(** [try: body / except Exception: handler]; every [exn] is an
    [Exception]. *)
Definition try_except {A} (body : M A) (handler : exn -> M A) : M A :=
  fun w =>
    match body w with
    | (Ok a, w') => (Ok a, w')
    | (Raise e, w') => handler e w'
    end.

Declare Scope world_scope.
Delimit Scope world_scope with world.
Notation "x <- m ;; k" := (mbind m (fun x => k))
  (at level 61, m at next level, right associativity) : world_scope.
Notation "m ;;; k" := (mbind m (fun _ => k))
  (at level 61, right associativity) : world_scope.
Local Open Scope world_scope.

Definition log_call (c : Call) : M unit :=
  fun w => (Ok tt,
            mk_world (keep_notes w) (local_deleted w) (document w) (batches w)
                     (stdout w) (calls w ++ [c])).

Definition fail_with (fault : option exn) : M unit :=
  match fault with
  | Some e => mraise e
  | None => mret tt
  end.

(** [print(s)] *)
Definition print (s : string) : M unit :=
  fun w => (Ok tt,
            mk_world (keep_notes w) (local_deleted w) (document w) (batches w)
                     (stdout w ++ [s]) (calls w)).

Definition has_label (label : string) (n : Note) : bool :=
  existsb (String.eqb label) (labels n).

(** [keep.login(username, password)] *)
Definition keep_login (f : Faults) (username password : string) : M unit :=
  log_call (CallLogin username) ;;; fail_with (login_fault f).

(** [keep.find(labels=[keep.findLabel(label)])]: the notes carrying the
    label. *)
Definition keep_find (f : Faults) (label : string) : M (list Note) :=
  log_call (CallFind label) ;;;
  fail_with (find_fault f) ;;;
  fun w => (Ok (filter (has_label label) (keep_notes w)), w).

(** [note.delete()]: marks the note in the local copy only. *)
Definition note_delete (n : Note) : M unit :=
  log_call (CallNoteDelete (note_id n)) ;;;
  fun w => (Ok tt,
            mk_world (keep_notes w) (local_deleted w ++ [note_id n])
                     (document w) (batches w) (stdout w) (calls w)).

Definition is_deleted (ids : list string) (n : Note) : bool :=
  existsb (String.eqb (note_id n)) ids.

(** [keep.sync()]: pushes the local deletions to the service. *)
Definition keep_sync (f : Faults) : M unit :=
  log_call CallSync ;;;
  fail_with (sync_fault f) ;;;
  fun w => (Ok tt,
            mk_world (filter (fun n => negb (is_deleted (local_deleted w) n))
                             (keep_notes w))
                     [] (document w) (batches w) (stdout w) (calls w)).

(** Building the Docs client from the service-account file. *)
Definition docs_build (f : Faults) (credentials_file : string) : M unit :=
  log_call (CallDocsBuild credentials_file) ;;; fail_with (build_fault f).

(** [service.documents().get(documentId=...).execute()] *)
Definition docs_get (f : Faults) (documentId : string) : M Document :=
  log_call (CallDocsGet documentId) ;;;
  fail_with (get_fault f) ;;;
  fun w => (Ok (document w), w).

(** [service.documents().batchUpdate(...).execute()]: the service applies
    the whole batch or none of it. *)
Definition docs_batchUpdate (f : Faults) (documentId : string)
    (requests : list Request) : M unit :=
  log_call (CallBatchUpdate documentId requests) ;;;
  fail_with (batch_fault f) ;;;
  fun w => (Ok tt,
            mk_world (keep_notes w) (local_deleted w) (document w)
                     (batches w ++ [requests]) (stdout w) (calls w)).

(** ** The orchestration code *)

Definition notesToGoogleDoc (config : Config) (f : Faults)
    (notes : list Note) : M unit :=
  docs_build f (CREDENTIALS_FILE config) ;;;
  doc <- docs_get f (DOCUMENT_ID config) ;;
  st <- lift (buildRequests config doc notes) ;;
  docs_batchUpdate f (DOCUMENT_ID config) (snd st).

Fixpoint delete_each (notes : list Note) : M unit :=
  match notes with
  | [] => mret tt
  | note :: rest => note_delete note ;;; delete_each rest
  end.

Definition deleteNotes (f : Faults) (notes : list Note) : M unit :=
  delete_each notes ;;; keep_sync f.

(** [main] reads [config.json] into the global [config]; the file's content
    is the argument [config], and reading it may fail. *)
Definition main (config : Config) (f : Faults) : M unit :=
  log_call CallOpenConfig ;;;
  fail_with (config_fault f) ;;;
  keep_login f (USERNAME config) (PASSWORD config) ;;;
  found <- keep_find f (KEEP_LABEL config) ;;
  let notes := Py.sorted created found in
  match notes with
  | [] => mret tt
  | _ :: _ => notesToGoogleDoc config f notes ;;; deleteNotes f notes
  end.

(** The response of the handler. *)
Record Response : Type := mk_response {
  statusCode : Z;
  body : string
}.

Definition exn_name (e : exn) : string :=
  match e with
  | TypeError => "TypeError"
  | ValueError => "ValueError"
  | KeyError => "KeyError"
  | IndexError => "IndexError"
  | OverflowError => "OverflowError"
  | ServiceError what => what
  end.

(** [traceback.format_exc()]: the header, the stack frames (left out
    here), and the exception line. *)
Definition format_exc (e : exn) : string :=
  "Traceback (most recent call last):" ++ LF ++ exn_name e ++ LF.

Definition hex_digit (n : nat) : ascii :=
  if (n <? 10)%nat then ascii_of_nat (48 + n) else ascii_of_nat (87 + n).

(** One character of a JSON string, as [json.dumps] writes it with
    [ensure_ascii]. *)
Definition json_escape (c : ascii) : string :=
  let n := nat_of_ascii c in
  if (n =? 34)%nat then "\" ++ String c EmptyString
  else if (n =? 92)%nat then "\\"
  else if (n =? 10)%nat then "\n"
  else if (n =? 13)%nat then "\r"
  else if (n =? 9)%nat then "\t"
  else if (n =? 8)%nat then "\b"
  else if (n =? 12)%nat then "\f"
  else if (n <? 32)%nat || (126 <? n)%nat then
    "\u00" ++ String (hex_digit (n / 16)) (String (hex_digit (n mod 16)) EmptyString)
  else String c EmptyString.

Fixpoint json_escape_all (s : string) : string :=
  match s with
  | String c r => json_escape c ++ json_escape_all r
  | EmptyString => EmptyString
  end.

Definition dquote : string := String (ascii_of_nat 34) EmptyString.

(** [json.dumps(s)] for a str. *)
Definition json_dumps (s : string) : string :=
  dquote ++ json_escape_all s ++ dquote.

Definition lambda_handler (config : Config) (f : Faults) : M Response :=
  trace <- try_except
             (main config f ;;; mret "Success!")
             (fun e => let trace := format_exc e in
                       print trace ;;; mret trace) ;;
  mret (mk_response 200 (json_dumps trace)).


(** ** Vocabulary of the statements *)

Definition digit_char (d : Z) : ascii := ascii_of_nat (48 + Z.to_nat d).

(** A number below 100 written with exactly two digits. *)
Definition two_digits (m : Z) : string :=
  String (digit_char (m / 10)) (String (digit_char (m mod 10)) EmptyString).

(** A datetime with the given hour and minute (on 2020-01-15). *)
Definition at_time (h m : Z) : datetime := mk_datetime 2020 1 15 h m 0 737439.

(** The ranges a chain of [addText] calls restyles, as the specification
    describes them: each starts where the previous one ended and is one
    longer than its text. *)
Fixpoint chain_ranges (items : list (string * string)) (e : Z) : list (Z * Z) :=
  match items with
  | [] => []
  | (text, _) :: rest =>
      (e, e + Py.len text + 1) :: chain_ranges rest (e + Py.len text + 1)
  end.

(** No entry of the document is a paragraph of the given style. *)
Definition no_paragraph_styled (doc : Document) (style : string) : Prop :=
  forall c p, In c (content doc) -> paragraph c = Some p ->
              namedStyleType p <> style.

(** The timezone-adjusted creation date of a note. *)
Definition date_of (config : Config) (note : Note) : result (Z * Z * Z) :=
  let? tc := astimezone (created note) (TZ_ADJUSTMENT config) in
  Ok (year tc, month tc, day tc).

Definition cursor_date (c : Cursor) : Z * Z * Z :=
  (lastYear c, lastMonth c, lastDay c).

(** Dates in chronological order. *)
Definition date_lt (a b : Z * Z * Z) : Prop :=
  let '(y1, m1, d1) := a in
  let '(y2, m2, d2) := b in
  y1 < y2 \/ (y1 = y2 /\ (m1 < m2 \/ (m1 = m2 /\ d1 < d2))).

Definition date_le (a b : Z * Z * Z) : Prop := a = b \/ date_lt a b.

Definition date_eqb (a b : Z * Z * Z) : bool :=
  let '(y1, m1, d1) := a in
  let '(y2, m2, d2) := b in
  (y1 =? y2) && (m1 =? m2) && (d1 =? d2).

(** The style is one of the three date-heading styles of the
    configuration. *)
Definition is_date_style (config : Config) (style : string) : bool :=
  String.eqb style ("HEADING_" ++ YEAR_HEADER_NUM config)
  || String.eqb style ("HEADING_" ++ MONTH_HEADER_NUM config)
  || String.eqb style ("HEADING_" ++ DAY_HEADER_NUM config).

(** Reading a batch for its heading groups: a group is a maximal run of
    date-styled paragraphs, and what is returned for each group is the text
    of the paragraph right after it, the one the group introduces. *)
Fixpoint group_titles (config : Config) (in_group : bool)
    (ps : list (string * string)) : list string :=
  match ps with
  | [] => []
  | (style, txt) :: rest =>
      if is_date_style config style then group_titles config true rest
      else if in_group then txt :: group_titles config false rest
      else group_titles config false rest
  end.

(** The title and time styles are not also used for a date level. *)
Definition date_styles_apart (config : Config) : Prop :=
  is_date_style config ("HEADING_" ++ TITLE_HEADER_NUM config) = false
  /\ is_date_style config ("HEADING_" ++ TIME_HEADER_NUM config) = false.

(** The date headings put in front of a note dated [tc] when the date
    carried forward is [last], as (text, style) arguments of [addText]: one
    per component that differs. *)
Definition year_items (config : Config) (y : Z) (tc : datetime)
  : list (string * string) :=
  if year tc =? y then []
  else [(Py.str (year tc), "HEADING_" ++ YEAR_HEADER_NUM config)].

Definition month_items (config : Config) (m : Z) (tc : datetime)
  : list (string * string) :=
  if month tc =? m then []
  else [(nth (Z.to_nat (month tc)) months EmptyString,
         "HEADING_" ++ MONTH_HEADER_NUM config)].

Definition day_items (config : Config) (d : Z) (tc : datetime)
  : list (string * string) :=
  if day tc =? d then []
  else [(nth (Z.to_nat (weekday tc)) weekDays EmptyString ++ " "
           ++ Py.str (day tc) ++ ordinal_suffix_spec (day tc),
         "HEADING_" ++ DAY_HEADER_NUM config)].

Definition date_items (config : Config) (last : Z * Z * Z) (tc : datetime)
  : list (string * string) :=
  let '(y, m, d) := last in
  List.app (year_items config y tc)
           (List.app (month_items config m tc) (day_items config d tc)).

(** The three insertions every note gets. *)
Definition entry_items (config : Config) (tc : datetime) (note : Note)
  : list (string * string) :=
  [ (title note, "HEADING_" ++ TITLE_HEADER_NUM config);
    (getTime tc, "HEADING_" ++ TIME_HEADER_NUM config);
    (text note, "NORMAL_TEXT") ].

(** The date of a converted time. *)
Definition ymd (tc : datetime) : Z * Z * Z := (year tc, month tc, day tc).

(** What the specification has the append builder insert for a list of
    notes with their local creation times, starting from the date [last]. *)
Fixpoint journal_items (config : Config) (last : Z * Z * Z)
    (dated : list (Note * datetime)) : list (string * string) :=
  match dated with
  | [] => []
  | (note, tc) :: rest =>
      List.app (date_items config last tc)
               (List.app (entry_items config tc note)
                         (journal_items config (ymd tc) rest))
  end.

(** The paragraph an [addText] call adds: its style and its text. *)
Definition paragraph_of_item (item : string * string) : string * string :=
  (snd item, LF ++ fst item).

(** The titles of the notes whose date differs from the date before them in
    the run ([last] for the first). *)
Fixpoint introduced_titles (last : Z * Z * Z) (dated : list (Note * datetime))
  : list string :=
  match dated with
  | [] => []
  | (note, tc) :: rest =>
      List.app (if date_eqb (ymd tc) last then [] else [LF ++ title note])
               (introduced_titles (ymd tc) rest)
  end.

(** The local creation times of a list of notes. *)
Definition local_times (config : Config) (notes : list Note) (tcs : list datetime)
  : Prop :=
  Forall2 (fun n tc => astimezone (created n) (TZ_ADJUSTMENT config) = Ok tc)
          notes tcs.

(** The note is dated [d]. *)
Definition dated_on (config : Config) (note : Note) (d : Z * Z * Z) : bool :=
  match date_of config note with
  | Ok d' => date_eqb d' d
  | Raise _ => false
  end.

(** The notes are in ascending order of creation time. *)
Definition ascending (notes : list Note) : Prop :=
  StronglySorted (fun a b => created a <= created b) notes.

(** One heading group per date, read literally: whenever the notes have
    pairwise distinct dates and come in ascending order, the batch holds as
    many heading groups as there are notes. *)
Definition one_heading_group_per_date (config : Config) (doc : Document)
    (notes : list Note) : Prop :=
  NoDup (map (date_of config) notes) -> ascending notes ->
  forall st rq,
    buildRequests config doc notes = Ok (st, rq) ->
    List.length (group_titles config false (paragraphs_of rq))
    = List.length notes.

(** The requests of a successful run of the loop ([[]] when it raises). *)
Definition requests_of (r : result (option Cursor * list Request))
  : list Request :=
  match r with
  | Ok st => snd st
  | Raise _ => []
  end.

Definition cursor_of (r : result (option Cursor * list Request))
  : option Cursor :=
  match r with
  | Ok st => fst st
  | Raise _ => None
  end.

(** The cursor is usable by the next iteration without reloading. *)
Definition cursor_started (cur : option Cursor) : Prop :=
  match cur with
  | Some c => 0 < endIndex c
  | None => True
  end.

(** A request list made of [insertText] / [updateParagraphStyle] pairs. *)
Inductive paired : list Request -> Prop :=
| paired_nil : paired []
| paired_cons i txt s e style rest :
    paired rest ->
    paired (insertText i txt :: updateParagraphStyle s e style :: rest).

Definition is_delete_call (c : Call) : bool :=
  match c with
  | CallNoteDelete _ | CallSync => true
  | _ => false
  end.

Definition is_write_call (c : Call) : bool :=
  match c with
  | CallBatchUpdate _ _ => true
  | _ => false
  end.

(** A computation that never touches the notes: the service's notes and the
    local deletion marks stay as they are and no delete or sync call is
    made, whatever the outcome. *)
Definition leaves_notes_alone {A} (m : M A) : Prop :=
  forall w,
    keep_notes (snd (m w)) = keep_notes w
    /\ local_deleted (snd (m w)) = local_deleted w
    /\ exists new, calls (snd (m w)) = (calls w ++ new)%list
                   /\ filter is_delete_call new = [].

(** A computation that never writes to the document. *)
Definition leaves_document_alone {A} (m : M A) : Prop :=
  forall w,
    document (snd (m w)) = document w
    /\ batches (snd (m w)) = batches w
    /\ exists new, calls (snd (m w)) = (calls w ++ new)%list
                   /\ filter is_write_call new = [].

(** ** Checking a property on a range of integers *)

(** [p] holds of [lo], [lo + 1], ..., [lo + len - 1]; the range is split in
    halves, following the binary digits of [len]. *)
Fixpoint Zall (p : Z -> bool) (lo : Z) (len : positive) : bool :=
  match len with
  | xH => p lo
  | xO l => Zall p lo l && Zall p (lo + Zpos l) l
  | xI l => p lo && Zall p (lo + 1) l && Zall p (lo + 1 + Zpos l) l
  end.

Definition date_ltb (a b : Z * Z * Z) : bool :=
  let '(y1, m1, d1) := a in
  let '(y2, m2, d2) := b in
  (y1 <? y2) || ((y1 =? y2) && ((m1 <? m2) || ((m1 =? m2) && (d1 <? d2)))).

(** A date moved by a number of years. *)
Definition shift_years (k : Z) (ymd : Z * Z * Z) : Z * Z * Z :=
  let '(y, m, d) := ymd in (y + k, m, d).

(** The day before and the day after are in calendar order, and the month
    and day are in range. *)
Definition calendar_step_ok (ord : Z) : bool :=
  let '(y, m, d) := ord2ymd ord in
  date_ltb (y, m, d) (ord2ymd (ord + 1))
  && (1 <=? m) && (m <=? 12) && (1 <=? d) && (d <=? 31).

Definition ordinal_agrees (n : Z) : bool :=
  match ordinal n with
  | Ok s => String.eqb s (Py.str n ++ ordinal_suffix_spec n)
  | Raise _ => false
  end.

(** The minute as [getTime] writes it. *)
Definition minute_field (m : Z) : string :=
  if 10 <=? m then Py.str m else "0" ++ Py.str m.

Definition minute_field_ok (m : Z) : bool :=
  String.eqb (minute_field m) (two_digits m).

Definition hour_field_ok (h : Z) : bool :=
  match Py.str (clock12_hour_spec h) with
  | String c _ => negb (Ascii.eqb c "0")
  | EmptyString => false
  end.

(** A computation that raises from every world. *)
Definition always_raises {A} (m : M A) : Prop :=
  forall w, exists e, fst (m w) = Raise e.

(** The first half of [main]: read the configuration, log in, query the
    label. *)
Definition fetch (config : Config) (f : Faults) : M (list Note) :=
  log_call CallOpenConfig ;;;
  fail_with (config_fault f) ;;;
  keep_login f (USERNAME config) (PASSWORD config) ;;;
  keep_find f (KEEP_LABEL config).

(** The calls of a run in which nothing fails before the label query
    returns. *)
Definition fetch_calls (config : Config) : list Call :=
  [CallOpenConfig; CallLogin (USERNAME config); CallFind (KEEP_LABEL config)].

(** ** Sample data *)

Module Sample.

Definition config : Config :=
  mk_config "user" "secret" "journal" "credentials.json" "doc-1"
            "1" "2" "3" "4" "5" 0.

Definition heading (level text : string) (e : Z) : StructuralElement :=
  mk_structural
    (Some (mk_paragraph ("HEADING_" ++ level) [mk_element (Some (text ++ LF))]))
    e.

Definition plain (text : string) (e : Z) : StructuralElement :=
  mk_structural
    (Some (mk_paragraph "NORMAL_TEXT" [mk_element (Some (text ++ LF))])) e.

(** A journal whose last entry is dated Wednesday 15 January 2020. *)
Definition doc : Document :=
  mk_document
    [ mk_structural None 1;
      heading "1" "2020" 6;
      heading "2" "January" 14;
      heading "3" "Wednesday 15th" 29;
      heading "4" "Groceries" 39;
      heading "5" "9:30am" 46;
      plain "milk" 51 ].

(** A document with no heading at all. *)
Definition blank_doc : Document :=
  mk_document [ mk_structural None 1; plain "hello" 7 ].

(** Midnight (UTC) of 2020-01-15, in microseconds since the epoch. *)
Definition jan15 : Z := 1579046400 * 1000000.

Definition day_us : Z := 86400 * 1000000.

(** Written on 2020-01-15 at 13:05. *)
Definition note_jan15 : Note :=
  mk_note "n1" "Lunch" "soup" (jan15 + 47100 * 1000000) ["journal"].

(** Written on 2020-01-16 at 00:00. *)
Definition note_jan16 : Note :=
  mk_note "n2" "Walk" "park" (jan15 + day_us) ["journal"].

(** Written on 2020-02-15 at 00:00. *)
Definition note_feb15 : Note :=
  mk_note "n3" "Call" "mum" (jan15 + 31 * day_us) ["journal"].

(** A note without the label. *)
Definition note_other : Note :=
  mk_note "n4" "Misc" "todo" (jan15 + 2 * day_us) ["shopping"].

Definition no_faults : Faults :=
  mk_faults None None None None None None None.

Definition batch_fails : Faults :=
  mk_faults None None None None None (Some (ServiceError "HttpError")) None.

Definition world (notes : list Note) : World :=
  mk_world notes [] doc [] [] [].

End Sample.

(** ** Vocabulary of the further properties *)

(** The notes of a list with a given creation time, in the order of the
    list. *)
Definition created_at (k : Z) (notes : list Note) : list Note :=
  filter (fun n => created n =? k) notes.

(** Nothing fails up to and including the reading of the document. *)
Definition read_fault_free (f : Faults) : Prop :=
  config_fault f = None /\ login_fault f = None /\ find_fault f = None
  /\ build_fault f = None /\ get_fault f = None.

(** Nothing fails up to and including the batched write. *)
Definition append_fault_free (f : Faults) : Prop :=
  read_fault_free f /\ batch_fault f = None.

(** No external call fails. *)
Definition fault_free (f : Faults) : Prop :=
  append_fault_free f /\ sync_fault f = None.

(** The notes [main] hands on: the labelled notes of the service, sorted by
    creation time. *)
Definition transferred (config : Config) (w : World) : list Note :=
  Py.sorted created (filter (has_label (KEEP_LABEL config)) (keep_notes w)).

(** The calls of [notesToGoogleDoc] when it sends the batch [rq]. *)
Definition append_calls (config : Config) (rq : list Request) : list Call :=
  [ CallDocsBuild (CREDENTIALS_FILE config);
    CallDocsGet (DOCUMENT_ID config);
    CallBatchUpdate (DOCUMENT_ID config) rq ].

(** The calls of [deleteNotes]. *)
Definition delete_calls (notes : list Note) : list Call :=
  (map (fun n => CallNoteDelete (note_id n)) notes ++ [CallSync])%list.

(** A batch that appends: starting at [e], every [insertText] goes to the
    position right before the running end, the [updateParagraphStyle] after
    it restyles the range that starts at the running end and is as long as
    the inserted text (a line feed and the text), and the running end moves
    to the end of that range;
    [e'] is the running end after the last request. *)
Inductive appends_from : Z -> list Request -> Z -> Prop :=
| appends_nil e : appends_from e [] e
| appends_cons e text style rest e' :
    appends_from (e + Py.len text + 1) rest e' ->
    appends_from e (insertText (e - 1) (LF ++ text)
                      :: updateParagraphStyle e (e + Py.len text + 1) style
                      :: rest) e'.

(** The request touches no position before [e0 - 1]. *)
Definition at_or_after (e0 : Z) (r : Request) : Prop :=
  match r with
  | insertText i _ => e0 - 1 <= i
  | updateParagraphStyle s e _ => e0 <= s /\ s < e
  end.

(** The notes that open a new date: those dated differently from the note
    before them in the list ([last] for the first note). *)
Fixpoint date_openers (config : Config) (last : Z * Z * Z) (notes : list Note)
  : list Note :=
  match notes with
  | [] => []
  | n :: rest =>
      match date_of config n with
      | Ok d =>
          List.app (if date_eqb d last then [] else [n])
                   (date_openers config d rest)
      | Raise _ => []
      end
  end.

(** The content of a paragraph as the Docs service returns it: the text
    followed by the line feed that ends the paragraph. *)
Definition paragraph_content (text : string) : string := text ++ LF.

(** The texts of the year, month and day headings written for a date. *)
Definition year_text (tc : datetime) : string := Py.str (year tc).

Definition month_text (tc : datetime) : string :=
  nth (Z.to_nat (month tc)) months EmptyString.

Definition day_text (tc : datetime) : string :=
  nth (Z.to_nat (weekday tc)) weekDays EmptyString ++ " "
  ++ Py.str (day tc) ++ ordinal_suffix_spec (day tc).

(** Reading back a year heading, a month heading and a day heading. *)
Definition year_reads_back (y : Z) : bool :=
  match Py.int (Some (Py.strip (paragraph_content (Py.str y)))) with
  | Ok y' => y' =? y
  | Raise _ => false
  end.

Definition month_reads_back (m : Z) : bool :=
  match Py.index months
          (Some (Py.strip (paragraph_content (nth (Z.to_nat m) months EmptyString)))) with
  | Ok m' => m' =? m
  | Raise _ => false
  end.

Definition day_reads_back (wd d : Z) : bool :=
  match digits_of
          (Some (Py.strip (paragraph_content
                   (nth (Z.to_nat wd) weekDays EmptyString ++ " "
                    ++ Py.str d ++ ordinal_suffix_spec d)))) with
  | Ok ds => match Py.int_of_str ds with
             | Ok d' => d' =? d
             | Raise _ => false
             end
  | Raise _ => false
  end.

(** The local creation time of the note can be computed. *)
Definition has_local_time (config : Config) (n : Note) : Prop :=
  exists tc, astimezone (created n) (TZ_ADJUSTMENT config) = Ok tc.

(** The notes left on the service once the notes with the given ids are
    deleted. *)
Definition without_ids (ids : list string) (notes : list Note) : list Note :=
  filter (fun n => negb (is_deleted ids n)) notes.

(** The world after the notes were fetched and the document was read. *)
Definition after_read (config : Config) (w : World) : World :=
  mk_world (keep_notes w) (local_deleted w) (document w) (batches w) (stdout w)
           (calls w ++ fetch_calls config
              ++ [ CallDocsBuild (CREDENTIALS_FILE config);
                   CallDocsGet (DOCUMENT_ID config) ]).

(** The world after the batch [rq] was written. *)
Definition after_append (config : Config) (rq : list Request) (w : World)
  : World :=
  mk_world (keep_notes w) (local_deleted w) (document w) (batches w ++ [rq])
           (stdout w)
           (calls w ++ fetch_calls config ++ append_calls config rq).

(** * Proofs *)

(** ** Finite ranges *)

Lemma Zall_sound (p : Z -> bool) (len : positive) :
  forall lo, Zall p lo len = true ->
             forall z, lo <= z < lo + Zpos len -> p z = true.
Proof.
  induction len as [l IH | l IH |]; intros lo H z Hz; cbn [Zall] in H.
  - apply andb_prop in H as [H H3]. apply andb_prop in H as [H1 H2].
    destruct (Z.eq_dec z lo) as [-> | Hne]; [exact H1 |].
    destruct (Z_lt_ge_dec z (lo + 1 + Zpos l)).
    + apply (IH _ H2). lia.
    + apply (IH _ H3). lia.
  - apply andb_prop in H as [H1 H2].
    destruct (Z_lt_ge_dec z (lo + Zpos l)).
    + apply (IH _ H1). lia.
    + apply (IH _ H2). lia.
  - assert (z = lo) as -> by lia. exact H.
Qed.

(** ** The calendar *)

Lemma date_ltb_spec (a b : Z * Z * Z) : date_ltb a b = true <-> date_lt a b.
Proof.
  destruct a as [[y1 m1] d1], b as [[y2 m2] d2]. unfold date_ltb, date_lt.
  rewrite !orb_true_iff, !andb_true_iff, !orb_true_iff, !andb_true_iff.
  rewrite !Z.ltb_lt, !Z.eqb_eq. tauto.
Qed.

Lemma date_lt_trans (a b c : Z * Z * Z) :
  date_lt a b -> date_lt b c -> date_lt a c.
Proof.
  destruct a as [[y1 m1] d1], b as [[y2 m2] d2], c as [[y3 m3] d3].
  unfold date_lt. lia.
Qed.

Lemma date_lt_irrefl (a : Z * Z * Z) : ~ date_lt a a.
Proof. destruct a as [[y m] d]. unfold date_lt. lia. Qed.

Lemma date_lt_shift (k : Z) (a b : Z * Z * Z) :
  date_lt a b -> date_lt (shift_years k a) (shift_years k b).
Proof.
  destruct a as [[y1 m1] d1], b as [[y2 m2] d2]. unfold date_lt, shift_years. lia.
Qed.

(** The calendar repeats every 400 years, that is every 146097 days. *)
Lemma ord2ymd_period (ord k : Z) :
  ord2ymd (ord + DI400Y * k) = shift_years (400 * k) (ord2ymd ord).
Proof.
  unfold ord2ymd.
  replace (ord + DI400Y * k - 1) with (ord - 1 + k * DI400Y) by lia.
  rewrite Z.div_add, Z.mod_add by (unfold DI400Y; lia).
  set (n := (ord - 1) mod DI400Y).
  set (q := (ord - 1) / DI400Y).
  destruct ((n mod DI100Y mod DI4Y / 365 =? 4) || (n / DI100Y =? 4));
    [unfold shift_years; f_equal; f_equal; lia |].
  cbv zeta.
  match goal with
  | |- (if ?c then _ else _) = _ => destruct c
  end; unfold shift_years; f_equal; f_equal; lia.
Qed.

Lemma calendar_cycle_checked : Zall calendar_step_ok 1 146097 = true.
Proof. vm_cast_no_check (eq_refl true). Qed.

Lemma calendar_step (ord : Z) : calendar_step_ok ord = true.
Proof.
  pose (q := (ord - 1) / DI400Y). pose (r := (ord - 1) mod DI400Y).
  assert (Hr : 0 <= r < 146097) by (apply Z.mod_pos_bound; reflexivity).
  assert (Hord : ord = (r + 1) + DI400Y * q).
  { unfold q, r. pose proof (Z.div_mod (ord - 1) DI400Y). unfold DI400Y in *. lia. }
  pose proof (Zall_sound _ _ _ calendar_cycle_checked (r + 1) ltac:(lia)) as H.
  unfold calendar_step_ok in *.
  replace (ord + 1) with ((r + 1 + 1) + DI400Y * q) by lia.
  rewrite Hord at 1. rewrite !ord2ymd_period.
  destruct (ord2ymd (r + 1)) as [[y m] d].
  cbn [shift_years].
  rewrite !andb_true_iff in H. destruct H as ((((H1 & H2) & H3) & H4) & H5).
  rewrite H2, H3, H4, H5, !andb_true_r.
  apply date_ltb_spec. apply date_ltb_spec in H1.
  apply (date_lt_shift (400 * q)) in H1. exact H1.
Qed.

Lemma ord2ymd_month_day_range (ord y m d : Z) :
  ord2ymd ord = (y, m, d) -> 1 <= m <= 12 /\ 1 <= d <= 31.
Proof.
  intros E. pose proof (calendar_step ord) as H.
  unfold calendar_step_ok in H. rewrite E in H.
  rewrite !andb_true_iff in H. lia.
Qed.

Lemma ord2ymd_next (ord : Z) : date_lt (ord2ymd ord) (ord2ymd (ord + 1)).
Proof.
  pose proof (calendar_step ord) as H. unfold calendar_step_ok in H.
  destruct (ord2ymd ord) as [[y m] d].
  rewrite !andb_true_iff in H. apply date_ltb_spec. tauto.
Qed.

Lemma ord2ymd_lt_nat (k : nat) (ord : Z) :
  date_lt (ord2ymd ord) (ord2ymd (ord + 1 + Z.of_nat k)).
Proof.
  induction k as [| k IH].
  - rewrite Z.add_0_r. apply ord2ymd_next.
  - eapply date_lt_trans; [exact IH |].
    replace (ord + 1 + Z.of_nat (S k)) with (ord + 1 + Z.of_nat k + 1) by lia.
    apply ord2ymd_next.
Qed.

(** Later days have later dates. *)
Lemma ord2ymd_monotone (o1 o2 : Z) :
  o1 <= o2 -> date_le (ord2ymd o1) (ord2ymd o2).
Proof.
  intros H. destruct (Z.eq_dec o1 o2) as [-> | Hne]; [now left |].
  right. replace o2 with (o1 + 1 + Z.of_nat (Z.to_nat (o2 - o1 - 1))) by lia.
  apply ord2ymd_lt_nat.
Qed.

Lemma astimezone_fields (us tz : Z) (tc : datetime) :
  astimezone us tz = Ok tc ->
  (year tc, month tc, day tc)
  = ord2ymd ((us / 1000000 + tz * 3600) / 86400 + epoch_ordinal)
  /\ toordinal tc = (us / 1000000 + tz * 3600) / 86400 + epoch_ordinal
  /\ hour tc = ((us / 1000000 + tz * 3600) mod 86400) / 3600
  /\ minute tc = (((us / 1000000 + tz * 3600) mod 86400) mod 3600) / 60.
Proof.
  unfold astimezone.
  destruct ((tz <=? -24) || (24 <=? tz)); [discriminate |].
  destruct (ord2ymd _) as [[y m] d] eqn:E.
  destruct ((y <? 1) || (9999 <? y)); [discriminate |].
  intros [= <-]. cbn. repeat split; reflexivity.
Qed.

(** The fields of a converted time are in range. *)
Lemma astimezone_ranges (us tz : Z) (tc : datetime) :
  astimezone us tz = Ok tc ->
  1 <= month tc <= 12 /\ 1 <= day tc <= 31
  /\ 0 <= hour tc < 24 /\ 0 <= minute tc < 60
  /\ 0 <= weekday tc < 7.
Proof.
  intros H. apply astimezone_fields in H as (E & _ & Hh & Hm).
  symmetry in E. apply ord2ymd_month_day_range in E.
  rewrite Hh, Hm. unfold weekday.
  pose proof (Z.mod_pos_bound (toordinal tc + 6) 7).
  set (s := us / 1000000 + tz * 3600).
  pose proof (Z.mod_pos_bound s 86400).
  pose proof (Z.mod_pos_bound (s mod 86400) 3600).
  repeat split; try lia.
  - apply Z.div_pos; lia.
  - apply Z.div_lt_upper_bound; lia.
  - apply Z.div_pos; lia.
  - apply Z.div_lt_upper_bound; lia.
Qed.

(** Notes created later are dated later, or the same day. *)
Lemma date_of_monotone (config : Config) (n1 n2 : Note) (d1 d2 : Z * Z * Z) :
  created n1 <= created n2 ->
  date_of config n1 = Ok d1 -> date_of config n2 = Ok d2 ->
  date_le d1 d2.
Proof.
  unfold date_of. intros Hle H1 H2.
  destruct (astimezone (created n1) _) as [t1 | e1] eqn:E1; [| discriminate].
  destruct (astimezone (created n2) _) as [t2 | e2] eqn:E2; [| discriminate].
  cbn in H1, H2. injection H1 as <-. injection H2 as <-.
  apply astimezone_fields in E1 as (-> & _). apply astimezone_fields in E2 as (-> & _).
  apply ord2ymd_monotone.
  apply Z.add_le_mono_r. apply Z.div_le_mono; [lia |].
  apply Z.add_le_mono_r. apply Z.div_le_mono; [lia | exact Hle].
Qed.

(** ** [ordinal] *)

Lemma ordinal_agrees_sound (n : Z) :
  ordinal_agrees n = true -> ordinal n = Ok (Py.str n ++ ordinal_suffix_spec n).
Proof.
  unfold ordinal_agrees. destruct (ordinal n) as [s | e]; [| discriminate].
  intros H. apply String.eqb_eq in H. now subst.
Qed.

(** C5: for every n from 1 to 100, [ordinal] returns the decimal string of n
    followed by its English ordinal suffix ("st", "nd", "rd" by last digit,
    "th" otherwise and for 11, 12, 13); in particular it maps 1, 2, 3, 4, 11,
    12, 13, 21 to "1st", "2nd", "3rd", "4th", "11th", "12th", "13th",
    "21st". *)
Theorem ordinal_suffix_correct (n : Z) :
  1 <= n <= 100 ->
  ordinal n = Ok (Py.str n ++ ordinal_suffix_spec n)
  /\ ordinal 1 = Ok "1st" /\ ordinal 2 = Ok "2nd" /\ ordinal 3 = Ok "3rd"
  /\ ordinal 4 = Ok "4th" /\ ordinal 11 = Ok "11th" /\ ordinal 12 = Ok "12th"
  /\ ordinal 13 = Ok "13th" /\ ordinal 21 = Ok "21st".
Proof.
  intros Hn. split.
  - apply ordinal_agrees_sound.
    apply (Zall_sound ordinal_agrees 100 1); [vm_compute; reflexivity | lia].
  - repeat split; reflexivity.
Qed.

Lemma ordinal_suffix_correct_witness :
  ordinal 22 = Ok (Py.str 22 ++ ordinal_suffix_spec 22)
  /\ ordinal 1 = Ok "1st" /\ ordinal 2 = Ok "2nd" /\ ordinal 3 = Ok "3rd"
  /\ ordinal 4 = Ok "4th" /\ ordinal 11 = Ok "11th" /\ ordinal 12 = Ok "12th"
  /\ ordinal 13 = Ok "13th" /\ ordinal 21 = Ok "21st".
Proof. apply (ordinal_suffix_correct 22). lia. Defined.

(** [ordinal] never fails: its list index is always in range. *)
Lemma ordinal_total (n : Z) : exists s, ordinal n = Ok s.
Proof.
  unfold ordinal.
  assert (H : 0 <= Z.min (n mod 10) 4 <= 4)
    by (pose proof (Z.mod_pos_bound n 10); lia).
  assert (Hc : Z.min (n mod 10) 4 = 0 \/ Z.min (n mod 10) 4 = 1
               \/ Z.min (n mod 10) 4 = 2 \/ Z.min (n mod 10) 4 = 3
               \/ Z.min (n mod 10) 4 = 4) by lia.
  destruct Hc as [-> | [-> | [-> | [-> | ->]]]]; eexists; reflexivity.
Qed.

(** ** [getTime] *)

Lemma minute_field_two_digits (m : Z) :
  0 <= m < 60 -> minute_field m = two_digits m.
Proof.
  intros H. apply String.eqb_eq.
  apply (Zall_sound minute_field_ok 60 0); [vm_compute; reflexivity | lia].
Qed.

Lemma hour_field_no_leading_zero (h : Z) :
  0 <= h < 24 ->
  exists c r, Py.str (clock12_hour_spec h) = String c r /\ c <> "0"%char.
Proof.
  intros H.
  assert (Hb : hour_field_ok h = true)
    by (apply (Zall_sound hour_field_ok 24 0); [vm_compute; reflexivity | lia]).
  unfold hour_field_ok in Hb.
  destruct (Py.str (clock12_hour_spec h)) as [| c r]; [discriminate |].
  exists c, r. split; [reflexivity |].
  intros ->. discriminate.
Qed.

Lemma getTime_fields (dt : datetime) :
  0 <= hour dt < 24 ->
  getTime dt = Py.str (clock12_hour_spec (hour dt)) ++ ":"
               ++ minute_field (minute dt) ++ clock12_suffix_spec (hour dt).
Proof.
  intros Hh. unfold getTime, clock12_hour_spec, clock12_suffix_spec, minute_field.
  destruct (Z.eqb_spec (hour dt) 0) as [E0 | N0].
  - rewrite E0. reflexivity.
  - destruct (Z.ltb_spec (hour dt) 12) as [L | G].
    + destruct (Z.leb_spec (hour dt) 12); [reflexivity | lia].
    + destruct (Z.eqb_spec (hour dt) 12) as [E | N].
      * rewrite E. reflexivity.
      * destruct (Z.leb_spec (hour dt) 12); [lia | reflexivity].
Qed.

(** C4: [getTime] writes the 12-hour clock: the hour without a leading zero
    (0 becomes 12, 13..23 become 1..11), a colon, the minute on two digits,
    and "am" before noon, "pm" from noon on; 00:00 gives "12:00am", 13:05
    gives "1:05pm", 23:59 gives "11:59pm", 12:00 gives "12:00pm". *)
Theorem getTime_twelve_hour_clock (dt : datetime) :
  0 <= hour dt < 24 -> 0 <= minute dt < 60 ->
  getTime dt = Py.str (clock12_hour_spec (hour dt)) ++ ":"
               ++ two_digits (minute dt) ++ clock12_suffix_spec (hour dt)
  /\ 1 <= clock12_hour_spec (hour dt) <= 12
  /\ String.get 0 (getTime dt) <> Some "0"%char
  /\ (hour dt = 0 -> clock12_hour_spec (hour dt) = 12
                     /\ clock12_suffix_spec (hour dt) = "am")
  /\ (hour dt = 12 -> clock12_hour_spec (hour dt) = 12
                      /\ clock12_suffix_spec (hour dt) = "pm")
  /\ (12 < hour dt -> clock12_hour_spec (hour dt) = hour dt mod 12
                      /\ clock12_suffix_spec (hour dt) = "pm")
  /\ getTime (at_time 0 0) = "12:00am"
  /\ getTime (at_time 13 5) = "1:05pm"
  /\ getTime (at_time 23 59) = "11:59pm".
Proof.
  intros Hh Hm.
  pose proof (getTime_fields dt Hh) as E.
  rewrite (minute_field_two_digits _ Hm) in E.
  split; [exact E |].
  split.
  { unfold clock12_hour_spec.
    destruct (Z.eqb_spec (hour dt) 0); [lia |].
    destruct (Z.leb_spec (hour dt) 12); [lia |].
    pose proof (Z.mod_pos_bound (hour dt) 12).
    assert (hour dt mod 12 = hour dt - 12) by
      (symmetry; apply (Z.mod_unique (hour dt) 12 1); lia).
    lia. }
  split.
  { rewrite E. destruct (hour_field_no_leading_zero _ Hh) as (c & r & -> & Hc).
    cbn [String.append String.get]. intros [= Heq]. exact (Hc Heq). }
  split; [intros ->; split; reflexivity |].
  split; [intros ->; split; reflexivity |].
  split.
  { intros Hgt. unfold clock12_hour_spec, clock12_suffix_spec.
    destruct (Z.eqb_spec (hour dt) 0); [lia |].
    destruct (Z.leb_spec (hour dt) 12); [lia |].
    destruct (Z.ltb_spec (hour dt) 12); [lia |]. split; reflexivity. }
  repeat split; reflexivity.
Qed.

Lemma getTime_twelve_hour_clock_witness :
  getTime (at_time 13 5) = "1:05pm" /\ getTime (at_time 12 0) = "12:00pm".
Proof.
  split.
  - apply (getTime_twelve_hour_clock (at_time 13 5)); cbn; lia.
  - rewrite (proj1 (getTime_twelve_hour_clock (at_time 12 0)
                      ltac:(cbn; lia) ltac:(cbn; lia))).
    reflexivity.
Defined.

(** ** [addText] and the ranges it restyles *)

Lemma style_ranges_app (r1 r2 : list Request) :
  style_ranges (r1 ++ r2) = (style_ranges r1 ++ style_ranges r2)%list.
Proof.
  induction r1 as [| [i t | s e st] r1 IH]; cbn; [reflexivity | exact IH |].
  now rewrite IH.
Qed.

Lemma addText_fst (text : string) (e : Z) (style : string) (rq : list Request) :
  fst (addText text e style rq) = e + Py.len text + 1.
Proof. reflexivity. Qed.

Lemma addText_snd (text : string) (e : Z) (style : string) (rq : list Request) :
  snd (addText text e style rq)
  = (rq ++ [ insertText (e - 1) (LF ++ text);
             updateParagraphStyle e (e + Py.len text + 1) style ])%list.
Proof. reflexivity. Qed.

Lemma len_nonneg (s : string) : 0 <= Py.len s.
Proof. unfold Py.len. lia. Qed.

Lemma style_ranges_addTexts (items : list (string * string)) (e : Z)
    (rq : list Request) :
  style_ranges (snd (addTexts items e rq))
  = (style_ranges rq ++ chain_ranges items e)%list.
Proof.
  revert e rq. induction items as [| [text style] items IH]; intros e rq; cbn.
  - now rewrite app_nil_r.
  - rewrite IH, style_ranges_app. cbn. now rewrite <- app_assoc.
Qed.

Lemma chain_ranges_start (items : list (string * string)) (e : Z) :
  Forall (fun r => e <= fst r /\ fst r < snd r) (chain_ranges items e).
Proof.
  revert e. induction items as [| [text style] items IH]; intros e; cbn.
  - constructor.
  - pose proof (len_nonneg text). constructor; [cbn; lia |].
    eapply Forall_impl; [| apply IH]. cbn. intros r. lia.
Qed.

Lemma chain_ranges_disjoint (items : list (string * string)) (e : Z) :
  ForallOrdPairs ranges_disjoint (chain_ranges items e).
Proof.
  revert e. induction items as [| [text style] items IH]; intros e; cbn.
  - constructor.
  - constructor; [| apply IH].
    eapply Forall_impl; [| apply chain_ranges_start].
    intros r [H _]. left. exact H.
Qed.

(** C2: [addText] returns endIndex + len(text) + 1, and in any chain of
    calls, each starting at the index the previous one returned, the
    restyled ranges [endIndex, newEndIndex) are non-empty, follow one
    another and are pairwise disjoint. *)
Theorem addText_ranges_do_not_overlap :
  (forall text e style rq,
      fst (addText text e style rq) = e + Py.len text + 1
      /\ style_ranges (snd (addText text e style rq))
         = (style_ranges rq ++ [(e, e + Py.len text + 1)])%list)
  /\ (forall items e0,
         let ranges := style_ranges (snd (addTexts items e0 [])) in
         ranges = chain_ranges items e0
         /\ Forall (fun r => fst r < snd r) ranges
         /\ ForallOrdPairs ranges_disjoint ranges).
Proof.
  split.
  - intros text e style rq. split; [reflexivity |].
    rewrite addText_snd, style_ranges_app. reflexivity.
  - intros items e0 ranges. subst ranges.
    rewrite style_ranges_addTexts. cbn [style_ranges app].
    split; [reflexivity |]. split.
    + eapply Forall_impl; [| apply chain_ranges_start]. intros r [_ H]. exact H.
    + apply chain_ranges_disjoint.
Qed.

(** ** The last date of the document *)

Lemma getLastHeader_scan_none (style : string) (l : list StructuralElement) :
  (forall c p, In c l -> paragraph c = Some p -> namedStyleType p <> style) ->
  getLastHeader_scan style l = Ok None.
Proof.
  induction l as [| c l IH]; intros H; cbn; [reflexivity |].
  destruct (paragraph c) as [p |] eqn:Hp.
  - destruct (String.eqb_spec (namedStyleType p) style) as [E | N].
    + exfalso. exact (H c p (or_introl eq_refl) Hp E).
    + apply IH. intros c' p' Hin. apply H. now right.
  - apply IH. intros c' p' Hin. apply H. now right.
Qed.

Lemma getLastHeader_none (doc : Document) (headerNum : string) :
  no_paragraph_styled doc ("HEADING_" ++ headerNum) ->
  getLastHeader doc headerNum = Ok None.
Proof.
  intros H. apply getLastHeader_scan_none.
  intros c p Hin. apply H. now apply in_rev.
Qed.

(** C8: when the document has no paragraph of a heading style,
    [getLastHeader] returns [None] for it; and [getLastDate] then raises
    instead of returning a date, whichever of the year, month or day style is
    the missing one. *)
Theorem missing_heading_makes_getLastDate_fail (config : Config) (doc : Document) :
  (forall headerNum,
      no_paragraph_styled doc ("HEADING_" ++ headerNum) ->
      getLastHeader doc headerNum = Ok None)
  /\ (no_paragraph_styled doc ("HEADING_" ++ YEAR_HEADER_NUM config)
      \/ no_paragraph_styled doc ("HEADING_" ++ MONTH_HEADER_NUM config)
      \/ no_paragraph_styled doc ("HEADING_" ++ DAY_HEADER_NUM config) ->
      exists e, getLastDate config doc = Raise e)
  /\ Py.int None = Raise TypeError
  /\ Py.index months None = Raise ValueError
  /\ digits_of None = Raise TypeError.
Proof.
  split; [intros h; apply getLastHeader_none |].
  split; [| repeat split; reflexivity].
  intros H. unfold getLastDate.
  destruct H as [H | [H | H]]; apply getLastHeader_none in H.
  - rewrite H. cbn. eauto.
  - destruct (getLastHeader doc (YEAR_HEADER_NUM config)) as [yh | e]; [| cbn; eauto].
    cbn [rbind]. destruct (Py.int yh) as [y | e]; [| cbn; eauto].
    cbn [rbind]. rewrite H. cbn. eauto.
  - destruct (getLastHeader doc (YEAR_HEADER_NUM config)) as [yh | e]; [| cbn; eauto].
    cbn [rbind]. destruct (Py.int yh) as [y | e]; [| cbn; eauto].
    cbn [rbind].
    destruct (getLastHeader doc (MONTH_HEADER_NUM config)) as [mh | e]; [| cbn; eauto].
    cbn [rbind]. destruct (Py.index months mh) as [m | e]; [| cbn; eauto].
    cbn [rbind]. rewrite H. cbn. eauto.
Qed.

Lemma blank_doc_has_no_heading (style : string) :
  style <> "NORMAL_TEXT" -> no_paragraph_styled Sample.blank_doc style.
Proof.
  intros Hs c p [<- | [<- | []]]; cbn; [discriminate |].
  intros [= <-]. cbn. congruence.
Qed.

Lemma missing_heading_makes_getLastDate_fail_witness :
  getLastHeader Sample.blank_doc "1" = Ok None
  /\ exists e, getLastDate Sample.config Sample.blank_doc = Raise e.
Proof.
  pose proof (missing_heading_makes_getLastDate_fail Sample.config Sample.blank_doc)
    as (H1 & H2 & _).
  split.
  - apply H1. apply blank_doc_has_no_heading. discriminate.
  - apply H2. left. apply blank_doc_has_no_heading. discriminate.
Defined.

(** ** One iteration of the loop *)

Lemma Ok_inj {A} (a b : A) : Ok a = Ok b -> a = b.
Proof. now intros [= ->]. Qed.

Lemma getitem_nth {A} (l : list A) (i : Z) (d : A) :
  0 <= i < Z.of_nat (List.length l) ->
  Py.getitem l i = Ok (nth (Z.to_nat i) l d).
Proof.
  intros H. unfold Py.getitem.
  destruct (Z.ltb_spec i 0); [lia |].
  destruct (Z.ltb_spec i 0); [lia |].
  destruct (Z.leb_spec (Z.of_nat (List.length l)) i); [lia |]. cbn [orb].
  destruct (nth_error l (Z.to_nat i)) as [a |] eqn:E.
  - f_equal. symmetry. now apply nth_error_nth.
  - apply nth_error_None in E. lia.
Qed.

Lemma ordinal_value (n : Z) :
  1 <= n <= 100 -> ordinal n = Ok (Py.str n ++ ordinal_suffix_spec n).
Proof.
  intros H. apply ordinal_agrees_sound.
  apply (Zall_sound ordinal_agrees 100 1); [vm_compute; reflexivity | lia].
Qed.

Lemma addTexts_app (a b : list (string * string)) (e : Z) (rq : list Request) :
  addTexts (a ++ b) e rq
  = addTexts b (fst (addTexts a e rq)) (snd (addTexts a e rq)).
Proof.
  revert e rq. induction a as [| [t s] a IH]; intros e rq; [reflexivity |].
  cbn [app addTexts]. destruct (addText t e s rq) as [e1 rq1]. apply IH.
Qed.

Lemma addTexts_fst_grows (items : list (string * string)) (e : Z)
    (rq : list Request) :
  e + Z.of_nat (List.length items) <= fst (addTexts items e rq).
Proof.
  revert e rq. induction items as [| [t s] items IH]; intros e rq.
  - cbn. lia.
  - cbn [addTexts]. unfold addText.
    match goal with |- _ <= fst (addTexts _ ?e' ?rq') => specialize (IH e' rq') end.
    pose proof (len_nonneg t). cbn [List.length]. lia.
Qed.

Lemma assignCursor_started (config : Config) (doc : Document) (c : Cursor) :
  0 < endIndex c -> assignCursor config doc (Some c) = Ok c.
Proof.
  intros H. cbn. destruct (Z.eqb_spec (endIndex c) 0); [lia | reflexivity].
Qed.

Lemma yearHeading_items (config : Config) (tc : datetime) (c : Cursor)
    (rq : list Request) :
  yearHeading config tc c rq
  = (mk_cursor (year tc) (lastMonth c) (lastDay c)
               (fst (addTexts (year_items config (lastYear c) tc) (endIndex c) rq)),
     snd (addTexts (year_items config (lastYear c) tc) (endIndex c) rq)).
Proof.
  unfold yearHeading, year_items. destruct c as [ly lm ld e].
  cbn [lastYear lastMonth lastDay endIndex].
  destruct (Z.eqb_spec (year tc) ly) as [<- | _]; reflexivity.
Qed.

Lemma monthHeading_items (config : Config) (tc : datetime) (c : Cursor)
    (rq : list Request) :
  1 <= month tc <= 12 ->
  monthHeading config tc c rq
  = Ok (mk_cursor (lastYear c) (month tc) (lastDay c)
                  (fst (addTexts (month_items config (lastMonth c) tc)
                                 (endIndex c) rq)),
        snd (addTexts (month_items config (lastMonth c) tc) (endIndex c) rq)).
Proof.
  intros Hm. unfold monthHeading, month_items. destruct c as [ly lm ld e].
  cbn [lastYear lastMonth lastDay endIndex].
  rewrite (getitem_nth months (month tc) EmptyString) by (cbn; lia).
  destruct (Z.eqb_spec (month tc) lm) as [<- | _]; reflexivity.
Qed.

Lemma dayHeading_items (config : Config) (tc : datetime) (c : Cursor)
    (rq : list Request) :
  1 <= day tc <= 31 -> 0 <= weekday tc < 7 ->
  dayHeading config tc c rq
  = Ok (mk_cursor (lastYear c) (lastMonth c) (day tc)
                  (fst (addTexts (day_items config (lastDay c) tc)
                                 (endIndex c) rq)),
        snd (addTexts (day_items config (lastDay c) tc) (endIndex c) rq)).
Proof.
  intros Hd Hw. unfold dayHeading, day_items. destruct c as [ly lm ld e].
  cbn [lastYear lastMonth lastDay endIndex].
  rewrite (getitem_nth weekDays (weekday tc) EmptyString) by (cbn; lia).
  rewrite (ordinal_value (day tc)) by lia.
  destruct (Z.eqb_spec (day tc) ld) as [<- | _]; reflexivity.
Qed.

Lemma noteEntry_items (config : Config) (tc : datetime) (note : Note)
    (c : Cursor) (rq : list Request) :
  noteEntry config tc note c rq
  = (set_endIndex c (fst (addTexts (entry_items config tc note) (endIndex c) rq)),
     snd (addTexts (entry_items config tc note) (endIndex c) rq)).
Proof. reflexivity. Qed.

(** An iteration whose cursor and time conversion succeed appends the
    date headings that differ and the three paragraphs of the note, as one
    chain of [addText] calls, and carries the note's date forward. *)
Lemma noteStep_ok (config : Config) (doc : Document) (cur : option Cursor)
    (rq : list Request) (note : Note) (c : Cursor) (tc : datetime) :
  assignCursor config doc cur = Ok c ->
  astimezone (created note) (TZ_ADJUSTMENT config) = Ok tc ->
  let items := (date_items config (cursor_date c) tc
                ++ entry_items config tc note)%list in
  noteStep config doc (cur, rq) note
  = Ok (Some (mk_cursor (year tc) (month tc) (day tc)
                        (fst (addTexts items (endIndex c) rq))),
        snd (addTexts items (endIndex c) rq)).
Proof.
  intros Hc Htc items. subst items.
  pose proof (astimezone_ranges _ _ _ Htc) as (Hm & Hd & _ & _ & Hw).
  unfold noteStep. rewrite Hc. cbn [rbind]. rewrite Htc. cbn [rbind].
  rewrite yearHeading_items.
  rewrite monthHeading_items by exact Hm. cbn [rbind lastYear lastMonth lastDay endIndex].
  rewrite dayHeading_items by assumption. cbn [rbind lastYear lastMonth lastDay endIndex].
  rewrite noteEntry_items. unfold set_endIndex.
  cbn [lastYear lastMonth lastDay endIndex].
  unfold date_items, cursor_date.
  rewrite <- !app_assoc, !addTexts_app. reflexivity.
Qed.

(** Conversely, an iteration that succeeds had a cursor and a local time. *)
Lemma noteStep_inv (config : Config) (doc : Document) (cur : option Cursor)
    (rq : list Request) (note : Note) (st' : option Cursor * list Request) :
  noteStep config doc (cur, rq) note = Ok st' ->
  exists c tc,
    assignCursor config doc cur = Ok c
    /\ astimezone (created note) (TZ_ADJUSTMENT config) = Ok tc.
Proof.
  unfold noteStep.
  destruct (assignCursor config doc cur) as [c | e]; [| discriminate].
  destruct (astimezone (created note) (TZ_ADJUSTMENT config)) as [tc | e];
    [| discriminate].
  intros _. eauto.
Qed.

Lemma assignCursor_end (config : Config) (doc : Document)
    (cur : option Cursor) (c : Cursor) (e0 : Z) :
  getEndIndex doc = Ok e0 -> 0 <= e0 -> cursor_started cur ->
  assignCursor config doc cur = Ok c -> 0 <= endIndex c.
Proof.
  intros He He0 Hs H.
  assert (Hl : loadCursor config doc = Ok c -> 0 <= endIndex c).
  { unfold loadCursor. destruct (getLastDate config doc) as [[[y m] d] | e];
      [| discriminate].
    cbn [rbind]. rewrite He. cbn. intros [= <-]. exact He0. }
  destruct cur as [c0 |]; cbn in H, Hs.
  - destruct (endIndex c0 =? 0); [exact (Hl H) |]. injection H as <-. lia.
  - exact (Hl H).
Qed.

Lemma date_items_length (config : Config) (last : Z * Z * Z) (tc : datetime) :
  (0 <= List.length (date_items config last tc))%nat.
Proof. lia. Qed.

(** ** The whole loop *)

Lemma journal_items_cons (config : Config) (last : Z * Z * Z) (n : Note)
    (tc : datetime) (rest : list (Note * datetime)) :
  journal_items config last ((n, tc) :: rest)
  = (date_items config last tc
     ++ entry_items config tc n ++ journal_items config (ymd tc) rest)%list.
Proof. reflexivity. Qed.

Lemma processNotes_app (config : Config) (doc : Document)
    (st : option Cursor * list Request) (l1 l2 : list Note) :
  processNotes config doc st (l1 ++ l2)
  = (let? st' := processNotes config doc st l1 in
     processNotes config doc st' l2).
Proof.
  revert st. induction l1 as [| n l1 IH]; intros st; [reflexivity |].
  cbn [app processNotes].
  destruct (noteStep config doc st n) as [st' | e]; [| reflexivity].
  cbn [rbind]. apply IH.
Qed.

Lemma processNotes_started (config : Config) (doc : Document) (notes : list Note) :
  forall (c : Cursor) (rq : list Request) (st' : option Cursor * list Request),
    0 < endIndex c ->
    processNotes config doc (Some c, rq) notes = Ok st' ->
    exists tcs c',
      local_times config notes tcs
      /\ st' = (Some c',
                snd (addTexts (journal_items config (cursor_date c)
                                             (combine notes tcs))
                              (endIndex c) rq))
      /\ 0 < endIndex c'.
Proof.
  induction notes as [| n notes IH]; intros c rq st' Hpos H.
  - cbn in H. injection H as <-. exists [], c. repeat split; [constructor | exact Hpos].
  - cbn [processNotes] in H.
    destruct (noteStep config doc (Some c, rq) n) as [st1 | e] eqn:E;
      [| discriminate].
    cbn [rbind] in H.
    destruct (noteStep_inv _ _ _ _ _ _ E) as (c0 & tc & Hc & Htc).
    rewrite (assignCursor_started _ _ _ Hpos) in Hc. injection Hc as <-.
    rewrite (noteStep_ok _ _ _ _ _ _ _ (assignCursor_started _ _ _ Hpos) Htc) in E.
    apply Ok_inj in E. subst st1.
    apply IH in H.
    + destruct H as (tcs & c' & Hl & -> & Hpos').
      exists (tc :: tcs), c'. split; [constructor; assumption |].
      split; [| exact Hpos'].
      f_equal. change (combine (n :: notes) (tc :: tcs))
          with ((n, tc) :: combine notes tcs).
        rewrite journal_items_cons, !addTexts_app. reflexivity.
    + cbn [endIndex].
      pose proof (addTexts_fst_grows
                    (date_items config (cursor_date c) tc ++ entry_items config tc n)
                    (endIndex c) rq) as G.
      rewrite length_app in G. cbn [entry_items List.length] in G. lia.
Qed.

Lemma loadCursor_value (config : Config) (doc : Document) (last : Z * Z * Z)
    (e0 : Z) :
  getLastDate config doc = Ok last -> getEndIndex doc = Ok e0 ->
  loadCursor config doc
  = Ok (mk_cursor (fst (fst last)) (snd (fst last)) (snd last) e0).
Proof.
  intros Hd He. unfold loadCursor. rewrite Hd. destruct last as [[y m] d].
  cbn [rbind]. rewrite He. reflexivity.
Qed.

Lemma buildRequests_journal (config : Config) (doc : Document)
    (notes : list Note) (st : option Cursor) (rq : list Request)
    (last : Z * Z * Z) (e0 : Z) :
  getLastDate config doc = Ok last -> getEndIndex doc = Ok e0 -> 0 <= e0 ->
  buildRequests config doc notes = Ok (st, rq) ->
  exists tcs,
    local_times config notes tcs
    /\ rq = snd (addTexts (journal_items config last (combine notes tcs)) e0 []).
Proof.
  intros Hd He He0 H. unfold buildRequests in H.
  destruct last as [[y m] d].
  destruct notes as [| n notes].
  - cbn in H. injection H as <- <-. exists []. split; [constructor | reflexivity].
  - cbn [processNotes] in H.
    destruct (noteStep config doc (None, []) n) as [st1 | e] eqn:E;
      [| discriminate].
    cbn [rbind] in H.
    destruct (noteStep_inv _ _ _ _ _ _ E) as (c0 & tc & Hc & Htc).
    rewrite (noteStep_ok _ _ _ _ _ _ _ Hc Htc) in E.
    apply Ok_inj in E. subst st1.
    cbn [assignCursor] in Hc. rewrite (loadCursor_value _ _ _ _ Hd He) in Hc.
    apply Ok_inj in Hc. subst c0.
    apply processNotes_started in H.
    + destruct H as (tcs & c' & Hl & Heq & _).
      apply pair_equal_spec in Heq as [-> ->].
      exists (tc :: tcs). split; [constructor; assumption |].
      change (combine (n :: notes) (tc :: tcs))
        with ((n, tc) :: combine notes tcs).
      rewrite journal_items_cons, !addTexts_app. reflexivity.
    + cbn [endIndex].
      match goal with |- 0 < fst (addTexts ?i ?e ?r) =>
        pose proof (addTexts_fst_grows i e r) as G end.
      rewrite length_app in G. cbn [entry_items List.length endIndex] in G. lia.
Qed.

(** C6: a note whose local year, month and day all equal the values
    carried forward gets no year, month or day heading: the iteration
    appends exactly the title heading, the time heading and the plain-text
    body, and leaves the carried date as it is. *)
Theorem same_date_emits_no_date_heading (config : Config) (doc : Document)
    (cur : option Cursor) (rq : list Request) (note : Note)
    (c : Cursor) (tc : datetime) :
  assignCursor config doc cur = Ok c ->
  astimezone (created note) (TZ_ADJUSTMENT config) = Ok tc ->
  year tc = lastYear c -> month tc = lastMonth c -> day tc = lastDay c ->
  let e := endIndex c in
  let e1 := e + Py.len (title note) + 1 in
  let e2 := e1 + Py.len (getTime tc) + 1 in
  let e3 := e2 + Py.len (text note) + 1 in
  noteStep config doc (cur, rq) note
  = Ok (Some (set_endIndex c e3),
        (rq ++ [ insertText (e - 1) (LF ++ title note);
                 updateParagraphStyle e e1 ("HEADING_" ++ TITLE_HEADER_NUM config);
                 insertText (e1 - 1) (LF ++ getTime tc);
                 updateParagraphStyle e1 e2 ("HEADING_" ++ TIME_HEADER_NUM config);
                 insertText (e2 - 1) (LF ++ text note);
                 updateParagraphStyle e2 e3 "NORMAL_TEXT" ])%list).
Proof.
  intros Hc Htc Hy Hm Hd e e1 e2 e3.
  rewrite (noteStep_ok _ _ _ _ _ _ _ Hc Htc).
  unfold date_items, cursor_date, year_items, month_items, day_items.
  rewrite <- Hy, <- Hm, <- Hd, !Z.eqb_refl.
  cbn [app entry_items addTexts]. unfold addText. cbn [fst snd].
  unfold set_endIndex. rewrite <- Hy, <- Hm, <- Hd.
  rewrite <- !app_assoc. reflexivity.
Qed.

Lemma same_date_emits_no_date_heading_witness :
  noteStep Sample.config Sample.doc (None, []) Sample.note_jan15
  = Ok (Some (mk_cursor 2020 1 15 69),
        [ insertText 50 (LF ++ "Lunch");
          updateParagraphStyle 51 57 "HEADING_4";
          insertText 56 (LF ++ "1:05pm");
          updateParagraphStyle 57 64 "HEADING_5";
          insertText 63 (LF ++ "soup");
          updateParagraphStyle 64 69 "NORMAL_TEXT" ]).
Proof.
  exact (same_date_emits_no_date_heading
           Sample.config Sample.doc None [] Sample.note_jan15
           (mk_cursor 2020 1 15 51)
           (mk_datetime 2020 1 15 13 5 0 737439)
           eq_refl eq_refl eq_refl eq_refl eq_refl).
Defined.

(** ** The carried date *)

Lemma months_round_trip (m : Z) :
  1 <= m <= 12 ->
  Py.getitem months m = Ok (nth (Z.to_nat m) months EmptyString)
  /\ Py.index months (Some (nth (Z.to_nat m) months EmptyString)) = Ok m.
Proof.
  intros H.
  assert (Hc : m = 1 \/ m = 2 \/ m = 3 \/ m = 4 \/ m = 5 \/ m = 6 \/ m = 7
               \/ m = 8 \/ m = 9 \/ m = 10 \/ m = 11 \/ m = 12) by lia.
  repeat (destruct Hc as [-> | Hc]; [split; reflexivity |]).
  subst m. split; reflexivity.
Qed.

Lemma noteStep_cursor_started (config : Config) (doc : Document)
    (cur cur' : option Cursor) (rq rq' : list Request) (note : Note) (e0 : Z) :
  getEndIndex doc = Ok e0 -> 0 <= e0 -> cursor_started cur ->
  noteStep config doc (cur, rq) note = Ok (cur', rq') ->
  cursor_started cur'.
Proof.
  intros He He0 Hs H.
  destruct (noteStep_inv _ _ _ _ _ _ H) as (c & tc & Hc & Htc).
  rewrite (noteStep_ok _ _ _ _ _ _ _ Hc Htc) in H.
  apply Ok_inj, pair_equal_spec in H as [<- _]. cbn [cursor_started endIndex].
  pose proof (assignCursor_end _ _ _ _ _ He He0 Hs Hc).
  match goal with |- 0 < fst (addTexts ?i ?e ?r) =>
    pose proof (addTexts_fst_grows i e r) as G end.
  rewrite length_app in G. cbn [entry_items List.length] in G. lia.
Qed.

Lemma processNotes_cursor_started (config : Config) (doc : Document)
    (notes : list Note) (e0 : Z) :
  getEndIndex doc = Ok e0 -> 0 <= e0 ->
  forall cur rq cur' rq',
    cursor_started cur ->
    processNotes config doc (cur, rq) notes = Ok (cur', rq') ->
    cursor_started cur'.
Proof.
  intros He He0. induction notes as [| n notes IH]; intros cur rq cur' rq' Hs H.
  - cbn in H. apply Ok_inj, pair_equal_spec in H as [<- _]. exact Hs.
  - cbn [processNotes] in H.
    destruct (noteStep config doc (cur, rq) n) as [[cur1 rq1] | e] eqn:E;
      [| discriminate].
    cbn [rbind] in H.
    apply (IH _ _ _ _ (noteStep_cursor_started _ _ _ _ _ _ _ _ He He0 Hs E) H).
Qed.

(** C10: after each note is processed, the carried [lastYear], [lastMonth]
    and [lastDay] are that note's local creation year, month number and day
    of month; the month number is between 1 and 12 and is the index of its
    name in [months], for emission and for parsing alike; and the next
    iteration compares against exactly these values. *)
Theorem carried_date_is_last_note_date (config : Config) (doc : Document)
    (notes : list Note) (n : Note) (st : option Cursor) (rq : list Request) :
  buildRequests config doc (notes ++ [n]) = Ok (st, rq) ->
  exists c tc,
    st = Some c
    /\ astimezone (created n) (TZ_ADJUSTMENT config) = Ok tc
    /\ lastYear c = year tc /\ lastMonth c = month tc /\ lastDay c = day tc
    /\ 1 <= lastMonth c <= 12
    /\ Py.getitem months (lastMonth c)
       = Ok (nth (Z.to_nat (lastMonth c)) months EmptyString)
    /\ Py.index months (Some (nth (Z.to_nat (lastMonth c)) months EmptyString))
       = Ok (lastMonth c)
    /\ (forall e0, getEndIndex doc = Ok e0 -> 0 <= e0 ->
                   assignCursor config doc st = Ok c).
Proof.
  unfold buildRequests. rewrite processNotes_app.
  destruct (processNotes config doc (None, []) notes) as [[cur1 rq1] | e] eqn:E1;
    [| discriminate].
  cbn [rbind processNotes].
  destruct (noteStep config doc (cur1, rq1) n) as [[cur2 rq2] | e] eqn:E2;
    [| discriminate].
  cbn [rbind]. intros H. apply Ok_inj, pair_equal_spec in H as [<- <-].
  destruct (noteStep_inv _ _ _ _ _ _ E2) as (c & tc & Hc & Htc).
  pose proof E2 as E2'.
  rewrite (noteStep_ok _ _ _ _ _ _ _ Hc Htc) in E2'.
  apply Ok_inj, pair_equal_spec in E2' as [<- _].
  pose proof (astimezone_ranges _ _ _ Htc) as (Hm & _).
  eexists _, tc. split; [reflexivity |]. split; [exact Htc |].
  cbn [lastYear lastMonth lastDay].
  repeat (split; [first [reflexivity | exact Hm
                         | apply (months_round_trip _ Hm)] |]).
  intros e0 He He0. apply assignCursor_started.
  assert (Hs1 : cursor_started cur1)
    by (apply (processNotes_cursor_started _ _ _ _ He He0 None [] _ _ I E1)).
  exact (noteStep_cursor_started _ _ _ _ _ _ _ _ He He0 Hs1 E2).
Qed.

Lemma carried_date_is_last_note_date_witness :
  exists c tc,
    Some (mk_cursor 2020 1 16 101) = Some c
    /\ astimezone (created Sample.note_jan16) (TZ_ADJUSTMENT Sample.config) = Ok tc
    /\ lastYear c = year tc /\ lastMonth c = month tc /\ lastDay c = day tc
    /\ 1 <= lastMonth c <= 12
    /\ Py.getitem months (lastMonth c)
       = Ok (nth (Z.to_nat (lastMonth c)) months EmptyString)
    /\ Py.index months (Some (nth (Z.to_nat (lastMonth c)) months EmptyString))
       = Ok (lastMonth c)
    /\ (forall e0, getEndIndex Sample.doc = Ok e0 -> 0 <= e0 ->
                   assignCursor Sample.config Sample.doc
                                (Some (mk_cursor 2020 1 16 101)) = Ok c).
Proof.
  apply (carried_date_is_last_note_date
           Sample.config Sample.doc [Sample.note_jan15] Sample.note_jan16
           (Some (mk_cursor 2020 1 16 101))
           (snd (addTexts
                   [("Lunch", "HEADING_4"); ("1:05pm", "HEADING_5");
                    ("soup", "NORMAL_TEXT"); ("Thursday 16th", "HEADING_3");
                    ("Walk", "HEADING_4"); ("12:00am", "HEADING_5");
                    ("park", "NORMAL_TEXT")] 51 []))).
  vm_compute. reflexivity.
Defined.

(** ** Reading the batch back *)

Lemma paired_app (r1 r2 : list Request) :
  paired r1 -> paired r2 -> paired (r1 ++ r2).
Proof.
  intros H1 H2. induction H1 as [| i txt s e style rest _ IH]; [exact H2 |].
  cbn [app]. now constructor.
Qed.

Lemma paragraphs_of_app (r1 r2 : list Request) :
  paired r1 ->
  paragraphs_of (r1 ++ r2) = (paragraphs_of r1 ++ paragraphs_of r2)%list.
Proof.
  intros H1. induction H1 as [| i txt s e style rest _ IH]; [reflexivity |].
  cbn [app paragraphs_of]. now rewrite IH.
Qed.

Lemma paragraphs_of_addTexts (items : list (string * string)) :
  forall e rq,
    paired rq ->
    paired (snd (addTexts items e rq))
    /\ paragraphs_of (snd (addTexts items e rq))
       = (paragraphs_of rq ++ map paragraph_of_item items)%list.
Proof.
  induction items as [| [t s] items IH]; intros e rq Hp.
  - cbn. now rewrite app_nil_r.
  - cbn [addTexts]. unfold addText.
    match goal with |- context [addTexts items ?e' ?rq'] =>
      destruct (IH e' rq') as [IH1 IH2] end.
    { apply paired_app; [exact Hp | repeat constructor]. }
    split; [exact IH1 |].
    rewrite IH2, paragraphs_of_app by exact Hp.
    rewrite <- app_assoc. reflexivity.
Qed.

Lemma date_eqb_eq (a b : Z * Z * Z) : date_eqb a b = true <-> a = b.
Proof.
  destruct a as [[y1 m1] d1], b as [[y2 m2] d2]. unfold date_eqb.
  rewrite !andb_true_iff, !Z.eqb_eq. split.
  - intros [[-> ->] ->]. reflexivity.
  - intros [= -> -> ->]. auto.
Qed.

Lemma date_items_nil (config : Config) (last : Z * Z * Z) (tc : datetime) :
  date_items config last tc = [] <-> date_eqb (ymd tc) last = true.
Proof.
  destruct last as [[y m] d].
  unfold date_items, year_items, month_items, day_items, date_eqb, ymd.
  destruct (year tc =? y), (month tc =? m), (day tc =? d); cbn;
    split; intros H; try reflexivity; discriminate.
Qed.

Lemma date_items_styled (config : Config) (last : Z * Z * Z) (tc : datetime) :
  Forall (fun item => is_date_style config (snd item) = true)
         (date_items config last tc).
Proof.
  destruct last as [[y m] d]. unfold date_items.
  apply Forall_app. split; [| apply Forall_app; split].
  - unfold year_items. destruct (year tc =? y); repeat constructor.
    cbn [snd]. unfold is_date_style. now rewrite String.eqb_refl.
  - unfold month_items. destruct (month tc =? m); repeat constructor.
    cbn [snd]. unfold is_date_style. now rewrite String.eqb_refl, orb_true_r.
  - unfold day_items. destruct (day tc =? d); repeat constructor.
    cbn [snd]. unfold is_date_style. now rewrite String.eqb_refl, orb_true_r.
Qed.

Lemma group_titles_date_prefix (config : Config)
    (items : list (string * string)) (rest : list (string * string)) :
  Forall (fun item => is_date_style config (snd item) = true) items ->
  forall b,
    group_titles config b (map paragraph_of_item items ++ rest)
    = group_titles config (match items with [] => b | _ => true end) rest.
Proof.
  induction 1 as [| [t s] items Hs _ IH]; intros b; [reflexivity |].
  cbn [map app paragraph_of_item fst snd group_titles]. cbn [snd] in Hs.
  rewrite Hs, IH. destruct items; reflexivity.
Qed.

Lemma normal_text_is_no_date_style (config : Config) :
  is_date_style config "NORMAL_TEXT" = false.
Proof. reflexivity. Qed.

Lemma group_titles_entry (config : Config) (tc : datetime) (n : Note)
    (rest : list (string * string)) (b : bool) :
  date_styles_apart config ->
  group_titles config b (map paragraph_of_item (entry_items config tc n) ++ rest)
  = List.app (if b then [LF ++ title n] else [])
             (group_titles config false rest).
Proof.
  intros [Ht Hh].
  cbn [entry_items map app paragraph_of_item fst snd group_titles].
  rewrite Ht, Hh, normal_text_is_no_date_style. destruct b; reflexivity.
Qed.

Lemma group_titles_journal (config : Config) (dated : list (Note * datetime)) :
  date_styles_apart config ->
  forall last,
    group_titles config false (map paragraph_of_item (journal_items config last dated))
    = introduced_titles last dated.
Proof.
  intros Ha. induction dated as [| [n tc] dated IH]; intros last; [reflexivity |].
  rewrite journal_items_cons, !map_app.
  rewrite (group_titles_date_prefix _ _ _ (date_items_styled config last tc)).
  rewrite group_titles_entry by exact Ha. rewrite IH.
  cbn [introduced_titles]. f_equal.
  destruct (date_eqb (ymd tc) last) eqn:E.
  - apply (proj2 (date_items_nil config last tc)) in E. rewrite E. reflexivity.
  - destruct (date_items config last tc) eqn:D; [| reflexivity].
    apply (proj1 (date_items_nil config last tc)) in D. congruence.
Qed.

(** ** Distinct dates *)

Lemma date_of_local (config : Config) (n : Note) (tc : datetime) :
  astimezone (created n) (TZ_ADJUSTMENT config) = Ok tc ->
  date_of config n = Ok (ymd tc).
Proof. intros H. unfold date_of. now rewrite H. Qed.

Lemma local_times_dates (config : Config) (notes : list Note)
    (tcs : list datetime) :
  local_times config notes tcs ->
  map (date_of config) notes = map Ok (map ymd tcs).
Proof.
  induction 1 as [| n tc notes tcs H _ IH]; [reflexivity |].
  cbn [map]. now rewrite (date_of_local _ _ _ H), IH.
Qed.

Lemma Ok_map_inj {A} (l1 l2 : list A) : map (@Ok A) l1 = map Ok l2 -> l1 = l2.
Proof.
  revert l2. induction l1 as [| a l1 IH]; intros [| b l2] H;
    try discriminate; [reflexivity |].
  cbn in H. injection H as -> H. f_equal. now apply IH.
Qed.

Lemma introduced_titles_distinct (notes : list Note) (tcs : list datetime) :
  List.length notes = List.length tcs ->
  forall prev,
    ~ In prev (map ymd tcs) -> NoDup (map ymd tcs) ->
    introduced_titles prev (combine notes tcs)
    = map (fun n => LF ++ title n) notes.
Proof.
  revert tcs. induction notes as [| n notes IH]; intros [| tc tcs] Hlen prev Hin Hnd;
    try discriminate; [reflexivity |].
  cbn [combine introduced_titles map]. cbn [map] in Hin, Hnd.
  inversion Hnd as [| ? ? Hnotin Hnd']; subst.
  destruct (date_eqb (ymd tc) prev) eqn:E.
  - apply date_eqb_eq in E. exfalso. apply Hin. now left.
  - cbn [app]. f_equal. apply IH; [now injection Hlen | exact Hnotin | exact Hnd'].
Qed.

Lemma dates_strictly_ascending (config : Config) (notes : list Note)
    (tcs : list datetime) :
  local_times config notes tcs ->
  ascending notes -> NoDup (map ymd tcs) ->
  StronglySorted date_lt (map ymd tcs).
Proof.
  induction 1 as [| n tc notes tcs H Hl IH]; intros Hs Hnd; [constructor |].
  inversion Hs as [| ? ? Hs' Hall]; subst.
  cbn [map] in *. inversion Hnd as [| ? ? Hnotin Hnd']; subst.
  constructor; [now apply IH |].
  clear IH Hs Hnd Hs' Hnd'.
  induction Hl as [| n' tc' notes tcs H' _ IH']; [constructor |].
  inversion Hall as [| ? ? Hle Hall']; subst.
  cbn [map] in *. constructor.
  - destruct (date_of_monotone config n n' (ymd tc) (ymd tc') Hle
                (date_of_local _ _ _ H) (date_of_local _ _ _ H')) as [E | L];
      [| exact L].
    exfalso. apply Hnotin. left. now symmetry.
  - apply IH'; [exact Hall' |]. intros Hin. apply Hnotin. now right.
Qed.

(** ** Heading groups *)

(** C1, as amended: for notes with pairwise distinct local dates, taken in
    ascending order of creation time from the document's last date, the
    batch holds exactly one group of date headings for each note, right in
    front of that note's title and in the order of the notes, except that a
    first note dated like the document's last entry gets none (it goes
    under the headings already there); and the dates of the notes are
    strictly ascending. *)
Theorem heading_groups_follow_the_notes (config : Config) (doc : Document)
    (notes : list Note) (st : option Cursor) (rq : list Request)
    (last : Z * Z * Z) (e0 : Z) :
  date_styles_apart config ->
  getLastDate config doc = Ok last -> getEndIndex doc = Ok e0 -> 0 <= e0 ->
  NoDup (map (date_of config) notes) -> ascending notes ->
  buildRequests config doc notes = Ok (st, rq) ->
  group_titles config false (paragraphs_of rq)
  = map (fun n => LF ++ title n)
        (match notes with
         | n :: rest => if dated_on config n last then rest else notes
         | [] => []
         end)
  /\ exists dates,
       map (date_of config) notes = map Ok dates
       /\ StronglySorted date_lt dates.
Proof.
  intros Ha Hd He He0 Hnd Hs H.
  destruct (buildRequests_journal _ _ _ _ _ _ _ Hd He He0 H) as (tcs & Hl & ->).
  pose proof (local_times_dates _ _ _ Hl) as Hdates.
  rewrite Hdates in Hnd. apply NoDup_map_inv in Hnd.
  split.
  - rewrite (proj2 (paragraphs_of_addTexts _ e0 [] paired_nil)).
    cbn [paragraphs_of app]. rewrite (group_titles_journal _ _ Ha).
    destruct Hl as [| n tc notes tcs Hn Hl]; [reflexivity |].
    cbn [combine introduced_titles]. unfold dated_on.
    rewrite (date_of_local _ _ _ Hn).
    cbn [map] in Hnd. inversion Hnd as [| ? ? Hnotin Hnd']; subst.
    rewrite (introduced_titles_distinct notes tcs
               (Forall2_length Hl) (ymd tc) Hnotin Hnd').
    destruct (date_eqb (ymd tc) last); reflexivity.
  - exists (map ymd tcs). split; [exact Hdates |].
    now apply (dates_strictly_ascending config notes tcs).
Qed.

Ltac not_in_list :=
  cbn; intros H;
  repeat (destruct H as [H | H]; [discriminate H |]); exact H.

Lemma heading_groups_follow_the_notes_witness :
  group_titles Sample.config false
    (paragraphs_of
       (requests_of
          (buildRequests Sample.config Sample.doc
             [Sample.note_jan15; Sample.note_jan16; Sample.note_feb15])))
  = [LF ++ "Walk"; LF ++ "Call"].
Proof.
  refine (proj1 (heading_groups_follow_the_notes
                   Sample.config Sample.doc
                   [Sample.note_jan15; Sample.note_jan16; Sample.note_feb15]
                   (cursor_of (buildRequests Sample.config Sample.doc
                      [Sample.note_jan15; Sample.note_jan16; Sample.note_feb15]))
                   (requests_of (buildRequests Sample.config Sample.doc
                      [Sample.note_jan15; Sample.note_jan16; Sample.note_feb15]))
                   (2020, 1, 15) 51 _ _ _ _ _ _ _)).
  - split; reflexivity.
  - reflexivity.
  - reflexivity.
  - lia.
  - vm_compute. repeat (constructor; [not_in_list |]). constructor.
  - unfold ascending. repeat constructor; vm_compute; discriminate.
  - vm_compute. reflexivity.
Defined.

(** C1, as stated, fails: a single note dated like the document's last
    entry (one distinct date, trivially in order) gets no date heading at
    all, so the batch holds no heading group for its date. *)
Lemma one_heading_group_per_date_counterexample :
  getLastDate Sample.config Sample.doc = Ok (2020, 1, 15)
  /\ date_of Sample.config Sample.note_jan15 = Ok (2020, 1, 15)
  /\ paragraphs_of
       (requests_of (buildRequests Sample.config Sample.doc [Sample.note_jan15]))
     = [ ("HEADING_4", LF ++ "Lunch"); ("HEADING_5", LF ++ "1:05pm");
         ("NORMAL_TEXT", LF ++ "soup") ]
  /\ ~ one_heading_group_per_date Sample.config Sample.doc [Sample.note_jan15].
Proof.
  split; [reflexivity |]. split; [reflexivity |]. split; [reflexivity |].
  intros H.
  assert (Hnd : NoDup (map (date_of Sample.config) [Sample.note_jan15]))
    by (repeat constructor; intros []).
  assert (Hasc : ascending [Sample.note_jan15]) by (repeat constructor).
  specialize (H Hnd Hasc
                (cursor_of (buildRequests Sample.config Sample.doc [Sample.note_jan15]))
                (requests_of (buildRequests Sample.config Sample.doc [Sample.note_jan15]))
                eq_refl).
  vm_compute in H. discriminate H.
Qed.

(** A heading group holds only the components that changed: a note written
    on the same day of the month as the document's last entry, one month
    later, gets a month heading and no day heading. *)
Lemma same_day_number_next_month :
  date_of Sample.config Sample.note_feb15 = Ok (2020, 2, 15)
  /\ paragraphs_of
       (requests_of (buildRequests Sample.config Sample.doc [Sample.note_feb15]))
     = [ ("HEADING_2", LF ++ "February"); ("HEADING_4", LF ++ "Call");
         ("HEADING_5", LF ++ "12:00am"); ("NORMAL_TEXT", LF ++ "mum") ].
Proof. split; reflexivity. Qed.

(** ** The process and the two services *)

Lemma mbind_run {A B} (m : M A) (k : A -> M B) (w : World) :
  mbind m k w = match m w with
                | (Ok a, w') => k a w'
                | (Raise e, w') => (Raise e, w')
                end.
Proof. reflexivity. Qed.

Lemma filter_delete_app (l1 l2 : list Call) :
  filter is_delete_call l1 = [] -> filter is_delete_call l2 = [] ->
  filter is_delete_call (l1 ++ l2) = [].
Proof. intros H1 H2. now rewrite filter_app, H1, H2. Qed.

Lemma leaves_notes_alone_bind {A B} (m : M A) (k : A -> M B) :
  leaves_notes_alone m -> (forall a, leaves_notes_alone (k a)) ->
  leaves_notes_alone (mbind m k).
Proof.
  intros Hm Hk w. rewrite mbind_run. specialize (Hm w).
  destruct (m w) as [[a | e] w1]; cbn [snd] in *; [| exact Hm].
  destruct Hm as (H1 & H2 & new1 & H3 & H4).
  destruct (Hk a w1) as (K1 & K2 & new2 & K3 & K4).
  split; [congruence |]. split; [congruence |].
  exists (new1 ++ new2)%list. split.
  - rewrite K3, H3. now rewrite app_assoc.
  - now apply filter_delete_app.
Qed.

Lemma leaves_notes_alone_log (c : Call) :
  is_delete_call c = false -> leaves_notes_alone (log_call c).
Proof.
  intros Hc w. cbn. repeat split. exists [c]. split; [reflexivity |].
  cbn. now rewrite Hc.
Qed.

Lemma leaves_notes_alone_pure {A} (r : World -> result A) :
  leaves_notes_alone (fun w => (r w, w)).
Proof.
  intros w. cbn. repeat split. exists []. now rewrite app_nil_r.
Qed.

Lemma leaves_notes_alone_fail (fault : option exn) :
  leaves_notes_alone (fail_with fault).
Proof.
  destruct fault; intros w; cbn; repeat split; exists []; now rewrite app_nil_r.
Qed.

Lemma leaves_notes_alone_batchUpdate (f : Faults) (id : string)
    (rq : list Request) :
  leaves_notes_alone (docs_batchUpdate f id rq).
Proof.
  unfold docs_batchUpdate.
  apply leaves_notes_alone_bind; [now apply leaves_notes_alone_log |].
  intros _. apply leaves_notes_alone_bind; [apply leaves_notes_alone_fail |].
  intros _ w. cbn. repeat split. exists []. now rewrite app_nil_r.
Qed.

Lemma leaves_notes_alone_lift {A} (r : result A) : leaves_notes_alone (lift r).
Proof. exact (leaves_notes_alone_pure (fun _ => r)). Qed.

Lemma docs_build_leaves_notes_alone (f : Faults) (file : string) :
  leaves_notes_alone (docs_build f file).
Proof.
  unfold docs_build.
  apply leaves_notes_alone_bind;
    [now apply leaves_notes_alone_log | intros _; apply leaves_notes_alone_fail].
Qed.

Lemma docs_get_leaves_notes_alone (f : Faults) (id : string) :
  leaves_notes_alone (docs_get f id).
Proof.
  unfold docs_get.
  apply leaves_notes_alone_bind; [now apply leaves_notes_alone_log |]. intros _.
  apply leaves_notes_alone_bind; [apply leaves_notes_alone_fail |]. intros _.
  exact (leaves_notes_alone_pure (fun w => Ok (document w))).
Qed.

(** Appending to the document never touches the notes. *)
Lemma notesToGoogleDoc_leaves_notes_alone (config : Config) (f : Faults)
    (notes : list Note) :
  leaves_notes_alone (notesToGoogleDoc config f notes).
Proof.
  unfold notesToGoogleDoc.
  apply leaves_notes_alone_bind; [apply docs_build_leaves_notes_alone |]. intros _.
  apply leaves_notes_alone_bind; [apply docs_get_leaves_notes_alone |]. intros doc.
  apply leaves_notes_alone_bind; [apply leaves_notes_alone_lift |]. intros st.
  apply leaves_notes_alone_batchUpdate.
Qed.

Lemma always_raises_bind {A B} (m : M A) (k : A -> M B) :
  (forall a, always_raises (k a)) -> always_raises (mbind m k).
Proof.
  intros Hk w. rewrite mbind_run.
  destruct (m w) as [[a | e] w1]; [apply Hk | cbn; eauto].
Qed.

Lemma always_raises_then {A B} (m : M A) (k : A -> M B) (w : World) :
  always_raises m -> mbind m k w = (Raise match fst (m w) with
                                          | Raise e => e
                                          | Ok _ => TypeError
                                          end, snd (m w)).
Proof.
  intros Hm. rewrite mbind_run. destruct (Hm w) as [e He].
  destruct (m w) as [[a | e'] w1]; cbn in *; [discriminate | reflexivity].
Qed.

Lemma notesToGoogleDoc_raises (config : Config) (f : Faults)
    (notes : list Note) (e : exn) :
  batch_fault f = Some e -> always_raises (notesToGoogleDoc config f notes).
Proof.
  intros Hf. unfold notesToGoogleDoc.
  apply always_raises_bind. intros _.
  apply always_raises_bind. intros doc.
  apply always_raises_bind. intros st.
  unfold docs_batchUpdate. rewrite Hf.
  apply always_raises_bind. intros _.
  intros w. cbn. eauto.
Qed.

Lemma leaves_notes_alone_raising {A B} (m : M A) (k : A -> M B) :
  leaves_notes_alone m -> always_raises m -> leaves_notes_alone (mbind m k).
Proof.
  intros Hl Hr w. rewrite (always_raises_then m k w Hr). cbn [snd]. apply Hl.
Qed.

Lemma keep_find_leaves_notes_alone (f : Faults) (label : string) :
  leaves_notes_alone (keep_find f label).
Proof.
  unfold keep_find.
  apply leaves_notes_alone_bind; [now apply leaves_notes_alone_log |]. intros _.
  apply leaves_notes_alone_bind; [apply leaves_notes_alone_fail |]. intros _.
  exact (leaves_notes_alone_pure
           (fun w => Ok (filter (has_label label) (keep_notes w)))).
Qed.

Lemma keep_login_leaves_notes_alone (f : Faults) (u p : string) :
  leaves_notes_alone (keep_login f u p).
Proof.
  unfold keep_login.
  apply leaves_notes_alone_bind;
    [now apply leaves_notes_alone_log | intros _; apply leaves_notes_alone_fail].
Qed.

(** When the batched write is bound to fail, a whole run leaves the notes
    alone. *)
Lemma main_leaves_notes_alone (config : Config) (f : Faults) (e : exn) :
  batch_fault f = Some e -> leaves_notes_alone (main config f).
Proof.
  intros Hf. unfold main.
  apply leaves_notes_alone_bind; [now apply leaves_notes_alone_log |]. intros _.
  apply leaves_notes_alone_bind; [apply leaves_notes_alone_fail |]. intros _.
  apply leaves_notes_alone_bind; [apply keep_login_leaves_notes_alone |]. intros _.
  apply leaves_notes_alone_bind; [apply keep_find_leaves_notes_alone |]. intros found.
  destruct (Py.sorted created found) as [| n notes].
  - apply (leaves_notes_alone_pure (fun _ => Ok tt)).
  - apply leaves_notes_alone_raising.
    + apply notesToGoogleDoc_leaves_notes_alone.
    + now apply (notesToGoogleDoc_raises _ _ _ e).
Qed.

(** What the first half of a run does: it changes nothing but the call
    log, and when it returns, it returns the labelled notes. *)
Lemma fetch_effect (config : Config) (f : Faults) (w : World) :
  keep_notes (snd (fetch config f w)) = keep_notes w
  /\ local_deleted (snd (fetch config f w)) = local_deleted w
  /\ document (snd (fetch config f w)) = document w
  /\ batches (snd (fetch config f w)) = batches w
  /\ stdout (snd (fetch config f w)) = stdout w
  /\ exists new,
       calls (snd (fetch config f w)) = (calls w ++ new)%list
       /\ filter is_delete_call new = []
       /\ filter is_write_call new = []
       /\ (forall found, fst (fetch config f w) = Ok found ->
             found = filter (has_label (KEEP_LABEL config)) (keep_notes w)
             /\ new = fetch_calls config)
       /\ (config_fault f = None -> login_fault f = None ->
           find_fault f = None ->
           fst (fetch config f w)
           = Ok (filter (has_label (KEEP_LABEL config)) (keep_notes w))).
Proof.
  unfold fetch, keep_login, keep_find, log_call, fail_with, mbind, mret, mraise.
  destruct (config_fault f) as [e1 |]; cbn;
    [repeat split; eexists; split; [reflexivity |];
     repeat split; try discriminate |].
  destruct (login_fault f) as [e2 |]; cbn;
    [repeat split; eexists; split; [rewrite <- app_assoc; reflexivity |];
     repeat split; try discriminate |].
  destruct (find_fault f) as [e3 |]; cbn;
    repeat split; eexists; (split; [rewrite <- !app_assoc; reflexivity |]);
    repeat split; try discriminate; congruence.
Qed.

Lemma main_run (config : Config) (f : Faults) (w : World) :
  main config f w
  = match fetch config f w with
    | (Ok found, w1) =>
        match Py.sorted created found with
        | [] => (Ok tt, w1)
        | n :: ns =>
            (notesToGoogleDoc config f (n :: ns) ;;; deleteNotes f (n :: ns)) w1
        end
    | (Raise e, w1) => (Raise e, w1)
    end.
Proof.
  unfold main, fetch. rewrite !mbind_run.
  destruct (log_call CallOpenConfig w) as [[[] | e] w1]; [| reflexivity].
  rewrite !mbind_run.
  destruct (fail_with (config_fault f) w1) as [[[] | e] w2]; [| reflexivity].
  rewrite !mbind_run.
  destruct (keep_login f (USERNAME config) (PASSWORD config) w2)
    as [[[] | e] w3]; [| reflexivity].
  rewrite mbind_run.
  destruct (keep_find f (KEEP_LABEL config) w3) as [[found | e] w4];
    [| reflexivity].
  destruct (Py.sorted created found); reflexivity.
Qed.

(** A successful append made exactly three calls, the last one the batched
    write of the requests built from the document, and the service applied
    that batch. *)
Lemma notesToGoogleDoc_ok (config : Config) (f : Faults) (notes : list Note)
    (w w1 : World) :
  notesToGoogleDoc config f notes w = (Ok tt, w1) ->
  batch_fault f = None
  /\ exists st rq,
       buildRequests config (document w) notes = Ok (st, rq)
       /\ calls w1
          = (calls w ++ [ CallDocsBuild (CREDENTIALS_FILE config);
                          CallDocsGet (DOCUMENT_ID config);
                          CallBatchUpdate (DOCUMENT_ID config) rq ])%list
       /\ batches w1 = (batches w ++ [rq])%list
       /\ keep_notes w1 = keep_notes w
       /\ local_deleted w1 = local_deleted w
       /\ document w1 = document w.
Proof.
  unfold notesToGoogleDoc, docs_build, docs_get, docs_batchUpdate, lift,
    log_call, fail_with, mbind, mret, mraise.
  destruct (build_fault f); cbn; [discriminate |].
  destruct (get_fault f); cbn; [discriminate |].
  destruct (buildRequests config (document w) notes) as [[st rq] | e]; cbn;
    [| discriminate].
  destruct (batch_fault f); cbn; [discriminate |].
  intros [= <-]. cbn. split; [reflexivity |]. exists st, rq.
  rewrite <- !app_assoc. repeat split; reflexivity.
Qed.

Lemma delete_each_effect (notes : list Note) :
  forall w,
    fst (delete_each notes w) = Ok tt
    /\ calls (snd (delete_each notes w))
       = (calls w ++ map (fun n => CallNoteDelete (note_id n)) notes)%list
    /\ local_deleted (snd (delete_each notes w))
       = (local_deleted w ++ map note_id notes)%list
    /\ keep_notes (snd (delete_each notes w)) = keep_notes w
    /\ batches (snd (delete_each notes w)) = batches w
    /\ document (snd (delete_each notes w)) = document w.
Proof.
  induction notes as [| n notes IH]; intros w.
  - cbn. rewrite !app_nil_r. repeat split; reflexivity.
  - cbn [delete_each]. unfold note_delete, log_call, mbind.
    cbn [fst snd].
    match goal with |- context [delete_each notes ?w'] =>
      destruct (IH w') as (H1 & H2 & H3 & H4 & H5 & H6) end.
    cbn [calls local_deleted keep_notes batches document] in *.
    rewrite H2, H3, H4, H5, H6, <- !app_assoc.
    repeat split; try reflexivity. exact H1.
Qed.

(** Deleting leaves the document as it is. *)
Lemma deleteNotes_effect (f : Faults) (notes : list Note) (w : World) :
  batches (snd (deleteNotes f notes w)) = batches w
  /\ document (snd (deleteNotes f notes w)) = document w
  /\ exists post, calls (snd (deleteNotes f notes w)) = (calls w ++ post)%list
                  /\ filter is_write_call post = [].
Proof.
  unfold deleteNotes. rewrite mbind_run.
  destruct (delete_each_effect notes w) as (H1 & H2 & _ & _ & H5 & H6).
  destruct (delete_each notes w) as [[[] | e] w1]; cbn [fst snd] in *;
    [| discriminate].
  assert (Hf : filter is_write_call
                 (map (fun n => CallNoteDelete (note_id n)) notes) = [])
    by (clear; induction notes; [reflexivity | exact IHnotes]).
  unfold keep_sync, log_call, fail_with, mbind, mret, mraise.
  destruct (sync_fault f); cbn; rewrite H2, H5, H6, <- app_assoc;
    (split; [reflexivity |]); (split; [reflexivity |]);
    eexists; (split; [reflexivity |]);
    rewrite filter_app, Hf; reflexivity.
Qed.

(** C3: when the batched document write raises, the run deletes nothing:
    the notes held by the service and the local deletion marks are left as
    they were and no delete or sync call is made.  More generally, in every
    run, either no delete or sync call is made, or all of them come after a
    batched write that the service accepted. *)
Theorem failed_batch_deletes_nothing (config : Config) (f : Faults) (w : World) :
  (forall e, batch_fault f = Some e ->
     keep_notes (snd (main config f w)) = keep_notes w
     /\ local_deleted (snd (main config f w)) = local_deleted w
     /\ exists new, calls (snd (main config f w)) = (calls w ++ new)%list
                    /\ filter is_delete_call new = [])
  /\ exists new,
       calls (snd (main config f w)) = (calls w ++ new)%list
       /\ (filter is_delete_call new = []
           \/ (batch_fault f = None
               /\ exists pre rq post,
                    new = (pre ++ CallBatchUpdate (DOCUMENT_ID config) rq :: post)%list
                    /\ filter is_delete_call pre = []
                    /\ batches (snd (main config f w)) = (batches w ++ [rq])%list)).
Proof.
  split; [intros e He; exact (main_leaves_notes_alone config f e He w) |].
  rewrite main_run.
  destruct (fetch_effect config f w)
    as (_ & _ & _ & Hb & _ & new1 & Hc & Hd & _ & _).
  destruct (fetch config f w) as [[found | e] w1]; cbn [fst snd] in *;
    [| exists new1; split; [exact Hc | now left]].
  destruct (Py.sorted created found) as [| n ns];
    [exists new1; split; [exact Hc | now left] |].
  rewrite mbind_run.
  pose proof (notesToGoogleDoc_leaves_notes_alone config f (n :: ns) w1)
    as (_ & _ & new2 & Hc2 & Hd2).
  destruct (notesToGoogleDoc config f (n :: ns) w1) as [[[] | e] w2] eqn:EN;
    cbn [snd] in *.
  - apply notesToGoogleDoc_ok in EN
      as (Hbf & st & rq & _ & Hcalls & Hbat & _ & _ & _).
    destruct (deleteNotes_effect f (n :: ns) w2) as (Hb3 & _ & post & Hc3 & _).
    exists (new1 ++ [ CallDocsBuild (CREDENTIALS_FILE config);
                      CallDocsGet (DOCUMENT_ID config) ]
            ++ CallBatchUpdate (DOCUMENT_ID config) rq :: post)%list.
    split.
    + rewrite Hc3, Hcalls, Hc, <- !app_assoc. reflexivity.
    + right. split; [exact Hbf |].
      exists (new1 ++ [ CallDocsBuild (CREDENTIALS_FILE config);
                        CallDocsGet (DOCUMENT_ID config) ])%list, rq, post.
      split; [now rewrite <- !app_assoc |].
      split; [rewrite filter_app, Hd; reflexivity |].
      rewrite Hb3, Hbat, Hb. reflexivity.
  - exists (new1 ++ new2)%list. split.
    + rewrite Hc2, Hc. now rewrite app_assoc.
    + left. now apply filter_delete_app.
Qed.

Lemma failed_batch_deletes_nothing_witness :
  keep_notes (snd (main Sample.config Sample.batch_fails
                     (Sample.world [Sample.note_jan16; Sample.note_other])))
  = [Sample.note_jan16; Sample.note_other].
Proof.
  exact (proj1 (proj1 (failed_batch_deletes_nothing
                         Sample.config Sample.batch_fails
                         (Sample.world [Sample.note_jan16; Sample.note_other]))
                      (ServiceError "HttpError") eq_refl)).
Defined.

(** C7: when no note carries the label, the run writes nothing to the
    document and deletes nothing: document, applied batches, notes and
    deletion marks stay as they were, and no batchUpdate, delete or sync
    call is made; when nothing fails before the query returns, the run ends
    normally after the three calls that fetch the notes. *)
Theorem no_notes_no_write_no_delete (config : Config) (f : Faults) (w : World) :
  filter (has_label (KEEP_LABEL config)) (keep_notes w) = [] ->
  document (snd (main config f w)) = document w
  /\ batches (snd (main config f w)) = batches w
  /\ keep_notes (snd (main config f w)) = keep_notes w
  /\ local_deleted (snd (main config f w)) = local_deleted w
  /\ exists new,
       calls (snd (main config f w)) = (calls w ++ new)%list
       /\ filter is_write_call new = []
       /\ filter is_delete_call new = []
       /\ (config_fault f = None -> login_fault f = None ->
           find_fault f = None ->
           fst (main config f w) = Ok tt /\ new = fetch_calls config).
Proof.
  intros Hnone. rewrite main_run.
  destruct (fetch_effect config f w)
    as (H1 & H2 & H3 & H4 & _ & new & Hc & Hd & Hw & Hok & Hrun).
  destruct (fetch config f w) as [[found | e] w1]; cbn [fst snd] in *.
  - destruct (Hok found eq_refl) as [-> ->]. rewrite Hnone.
    cbn [Py.sorted fst snd].
    split; [exact H3 |]. split; [exact H4 |]. split; [exact H1 |].
    split; [exact H2 |].
    exists (fetch_calls config). split; [exact Hc |]. split; [exact Hw |].
    split; [exact Hd |]. intros _ _ _. split; reflexivity.
  - split; [exact H3 |]. split; [exact H4 |]. split; [exact H1 |].
    split; [exact H2 |].
    exists new. split; [exact Hc |]. split; [exact Hw |]. split; [exact Hd |].
    intros C L F. specialize (Hrun C L F). discriminate.
Qed.

Lemma no_notes_no_write_no_delete_witness :
  batches (snd (main Sample.config Sample.no_faults
                  (Sample.world [Sample.note_other]))) = []
  /\ keep_notes (snd (main Sample.config Sample.no_faults
                        (Sample.world [Sample.note_other])))
     = [Sample.note_other].
Proof.
  pose proof (no_notes_no_write_no_delete
                Sample.config Sample.no_faults
                (Sample.world [Sample.note_other]) eq_refl)
    as (_ & H2 & H3 & _).
  split; [exact H2 | exact H3].
Defined.

(** C9: [lambda_handler] never raises and always answers with status code
    200: the body is the JSON string "Success!" when [main] returns, and the
    JSON string of the formatted traceback, which is also printed, when
    [main] raises. *)
Theorem lambda_handler_always_answers_200 (config : Config) (f : Faults)
    (w : World) :
  exists body w',
    lambda_handler config f w = (Ok (mk_response 200 body), w')
    /\ match main config f w with
       | (Ok _, w1) => body = json_dumps "Success!" /\ w' = w1
       | (Raise e, w1) =>
           body = json_dumps (format_exc e)
           /\ stdout w' = (stdout w1 ++ [format_exc e])%list
           /\ calls w' = calls w1 /\ keep_notes w' = keep_notes w1
           /\ batches w' = batches w1
       end.
Proof.
  unfold lambda_handler, try_except, print, mbind, mret.
  destruct (main config f w) as [[[] | e] w1]; cbn;
    eexists _, _; repeat split; reflexivity.
Qed.

(** * Further properties of the code *)

(** ** Sorting the notes *)

Lemma insert_by_perm {A} (key : A -> Z) (x : A) (l : list A) :
  Permutation (x :: l) (Py.insert_by key x l).
Proof.
  induction l as [| y l IH]; cbn; [reflexivity |].
  destruct (key y <=? key x); [| reflexivity].
  rewrite perm_swap. now constructor.
Qed.

Lemma insert_by_sorted {A} (key : A -> Z) (x : A) (l : list A) :
  StronglySorted (fun a b => key a <= key b) l ->
  StronglySorted (fun a b => key a <= key b) (Py.insert_by key x l).
Proof.
  induction l as [| y l IH]; intros H; cbn.
  - repeat constructor.
  - apply StronglySorted_inv in H as [Hs Hall].
    destruct (Z.leb_spec (key y) (key x)) as [L | G].
    + constructor; [now apply IH |].
      apply (Permutation_Forall (insert_by_perm key x l)).
      constructor; assumption.
    + constructor; [constructor; assumption |].
      constructor; [lia |].
      eapply Forall_impl; [| exact Hall]. cbn. intros a Ha. lia.
Qed.

Lemma insert_by_stable {A} (key : A -> Z) (x : A) (l : list A) (k : Z) :
  StronglySorted (fun a b => key a <= key b) l ->
  filter (fun a => key a =? k) (Py.insert_by key x l)
  = (filter (fun a => key a =? k) l ++ filter (fun a => key a =? k) [x])%list.
Proof.
  induction l as [| y l IH]; intros H; [reflexivity |].
  apply StronglySorted_inv in H as [Hs Hall]. cbn [Py.insert_by].
  destruct (Z.leb_spec (key y) (key x)) as [L | G].
  - cbn [filter]. rewrite (IH Hs).
    destruct (key y =? k); reflexivity.
  - cbn [filter app].
    destruct (Z.eqb_spec (key x) k) as [E | N].
    + destruct (Z.eqb_spec (key y) k) as [E' | _]; [lia |].
      assert (F : filter (fun a => key a =? k) l = []).
      { clear - Hall G E. induction Hall as [| a l Ha _ IHl]; [reflexivity |].
        cbn. destruct (Z.eqb_spec (key a) k); [lia | exact IHl]. }
      rewrite F. reflexivity.
    + rewrite app_nil_r. reflexivity.
Qed.

Lemma sorted_from {A} (key : A -> Z) (l : list A) :
  forall acc,
    StronglySorted (fun a b => key a <= key b) acc ->
    StronglySorted (fun a b => key a <= key b)
                   (fold_left (fun acc x => Py.insert_by key x acc) l acc)
    /\ Permutation (acc ++ l)
                   (fold_left (fun acc x => Py.insert_by key x acc) l acc)
    /\ forall k,
         filter (fun a => key a =? k)
                (fold_left (fun acc x => Py.insert_by key x acc) l acc)
         = (filter (fun a => key a =? k) acc
            ++ filter (fun a => key a =? k) l)%list.
Proof.
  induction l as [| x l IH]; intros acc Hacc; cbn [fold_left].
  - rewrite app_nil_r. repeat split; [exact Hacc | reflexivity |].
    intros k. cbn. now rewrite app_nil_r.
  - destruct (IH _ (insert_by_sorted key x acc Hacc)) as (H1 & H2 & H3).
    split; [exact H1 |]. split.
    + rewrite <- H2. rewrite <- (insert_by_perm key x acc).
      symmetry. apply Permutation_middle.
    + intros k. rewrite H3, (insert_by_stable key x acc k Hacc), <- app_assoc.
      cbn [filter]. destruct (key x =? k); reflexivity.
Qed.

(** X1: the list [main] passes on is the query result sorted by creation
    time: it is in ascending order, it holds the same notes, and notes
    created at the same instant keep the order the query returned them
    in. *)
Theorem sorted_notes_ascending_and_stable (found : list Note) :
  ascending (Py.sorted created found)
  /\ Permutation found (Py.sorted created found)
  /\ forall k, created_at k (Py.sorted created found) = created_at k found.
Proof.
  destruct (sorted_from created found [] (SSorted_nil _)) as (H1 & H2 & H3).
  split; [exact H1 |]. split; [exact H2 |]. intros k. exact (H3 k).
Qed.

(** ** [ordinal] on every int *)


(** ** [getEndIndex] *)

Lemma getitem_last {A} (l : list A) (x : A) :
  Py.getitem (l ++ [x]) (-1) = Ok x.
Proof.
  unfold Py.getitem. rewrite length_app. cbn [List.length].
  rewrite Nat2Z.inj_add. cbn [Z.ltb Z.compare].
  replace (-1 + (Z.of_nat (List.length l) + Z.of_nat 1))
    with (Z.of_nat (List.length l)) by lia.
  destruct (Z.ltb_spec (Z.of_nat (List.length l)) 0); [lia |].
  destruct (Z.leb_spec (Z.of_nat (List.length l) + Z.of_nat 1)
                       (Z.of_nat (List.length l))); [lia |].
  cbn [orb]. rewrite Nat2Z.id, nth_error_app2, Nat.sub_diag by lia.
  reflexivity.
Qed.

(** X3: [getEndIndex] returns the end index of the last entry of the
    document's content, whatever comes before it, and raises [IndexError]
    when the content is empty. *)
Theorem getEndIndex_reads_last_entry :
  getEndIndex (mk_document []) = Raise IndexError
  /\ forall before last,
       getEndIndex (mk_document (before ++ [last])) = Ok (elt_endIndex last).
Proof.
  split; [reflexivity |]. intros before last.
  unfold getEndIndex. cbn [content]. rewrite getitem_last. reflexivity.
Qed.

(** ** Reading headings back *)

Lemma getLastHeader_scan_skip (style : string) (l1 l2 : list StructuralElement) :
  (forall c p, In c l1 -> paragraph c = Some p -> namedStyleType p <> style) ->
  getLastHeader_scan style (l1 ++ l2) = getLastHeader_scan style l2.
Proof.
  induction l1 as [| c l1 IH]; intros H; [reflexivity |].
  cbn [app getLastHeader_scan].
  destruct (paragraph c) as [p |] eqn:E.
  - destruct (String.eqb_spec (namedStyleType p) style) as [Heq | _].
    + exfalso. apply (H c p); [now left | exact E | exact Heq].
    + apply IH. intros c' p' Hin. apply H. now right.
  - apply IH. intros c' p' Hin. apply H. now right.
Qed.

(** X4: [getLastHeader] reads the last paragraph of the heading style and
    nothing before it: it returns the stripped text of that paragraph's
    first element, raises [IndexError] when the paragraph has no element
    and [KeyError] when its first element is not a text run. *)
Theorem getLastHeader_reads_last_heading (doc : Document) (headerNum : string)
    (before after : list StructuralElement) (c : StructuralElement)
    (p : Paragraph) :
  content doc = (before ++ c :: after)%list ->
  paragraph c = Some p ->
  namedStyleType p = "HEADING_" ++ headerNum ->
  (forall c' p', In c' after -> paragraph c' = Some p' ->
                 namedStyleType p' <> "HEADING_" ++ headerNum) ->
  getLastHeader doc headerNum
  = match elements p with
    | [] => Raise IndexError
    | el :: _ =>
        match textRun el with
        | Some s => Ok (Some (Py.strip s))
        | None => Raise KeyError
        end
    end.
Proof.
  intros Hc Hp Hs Hafter. unfold getLastHeader.
  rewrite Hc, rev_app_distr. cbn [rev]. rewrite <- app_assoc.
  rewrite getLastHeader_scan_skip
    by (intros c' p' Hin; apply Hafter; now apply in_rev).
  cbn [app getLastHeader_scan]. rewrite Hp, Hs, String.eqb_refl.
  destruct (elements p) as [| el els]; reflexivity.
Qed.

Lemma getLastHeader_reads_last_heading_witness :
  getLastHeader
    (mk_document [ Sample.heading "3" "Monday 13th" 12;
                   Sample.plain "tea" 16;
                   Sample.heading "3" "Tuesday 14th" 29;
                   Sample.plain "rain" 34 ])
    "3"
  = Ok (Some "Tuesday 14th").
Proof.
  apply (getLastHeader_reads_last_heading
           (mk_document [ Sample.heading "3" "Monday 13th" 12;
                          Sample.plain "tea" 16;
                          Sample.heading "3" "Tuesday 14th" 29;
                          Sample.plain "rain" 34 ])
           "3"
           [ Sample.heading "3" "Monday 13th" 12; Sample.plain "tea" 16 ]
           [ Sample.plain "rain" 34 ]
           (Sample.heading "3" "Tuesday 14th" 29)
           (mk_paragraph "HEADING_3"
              [mk_element (Some ("Tuesday 14th" ++ LF))])).
  - reflexivity.
  - reflexivity.
  - reflexivity.
  - intros c' p' [<- | []] [= <-]. discriminate.
Defined.

Lemma astimezone_year_range (us tz : Z) (tc : datetime) :
  astimezone us tz = Ok tc -> 1 <= year tc <= 9999.
Proof.
  unfold astimezone.
  destruct ((tz <=? -24) || (24 <=? tz)); [discriminate |].
  destruct (ord2ymd _) as [[y m] d].
  destruct (Z.ltb_spec y 1) as [| Lo]; [discriminate |].
  destruct (Z.ltb_spec 9999 y) as [| Hi]; [discriminate |].
  cbn [orb]. intros Heq. apply Ok_inj in Heq. subst tc. cbn [year]. lia.
Qed.

Lemma years_read_back : Zall year_reads_back 1 9999 = true.
Proof. vm_compute. reflexivity. Qed.

Lemma months_read_back : Zall month_reads_back 1 12 = true.
Proof. vm_compute. reflexivity. Qed.

Lemma days_read_back :
  Zall (fun wd => Zall (day_reads_back wd) 1 31) 0 7 = true.
Proof. vm_compute. reflexivity. Qed.

(** X5: the date headings the program writes for a note read back as the
    note's date: when the last year, month and day headings of the document
    hold the texts written for the local creation time of a note (as the
    service returns them, ended by a line feed), [getLastDate] returns that
    time's year, month number and day. *)
Theorem written_headings_read_back (config : Config) (doc : Document)
    (note : Note) (tc : datetime) :
  astimezone (created note) (TZ_ADJUSTMENT config) = Ok tc ->
  getLastHeader doc (YEAR_HEADER_NUM config)
  = Ok (Some (Py.strip (paragraph_content (year_text tc)))) ->
  getLastHeader doc (MONTH_HEADER_NUM config)
  = Ok (Some (Py.strip (paragraph_content (month_text tc)))) ->
  getLastHeader doc (DAY_HEADER_NUM config)
  = Ok (Some (Py.strip (paragraph_content (day_text tc)))) ->
  getLastDate config doc = Ok (year tc, month tc, day tc).
Proof.
  intros Htc Hy Hm Hd.
  pose proof (astimezone_year_range _ _ _ Htc) as Ry.
  destruct (astimezone_ranges _ _ _ Htc) as (Rm & Rd & _ & _ & Rw).
  pose proof (Zall_sound _ _ _ years_read_back (year tc) ltac:(lia)) as Cy.
  pose proof (Zall_sound _ _ _ months_read_back (month tc) ltac:(lia)) as Cm.
  pose proof (Zall_sound _ _ _ days_read_back (weekday tc) ltac:(lia)) as Cd.
  cbv beta in Cd.
  pose proof (Zall_sound _ _ _ Cd (day tc) ltac:(lia)) as Cd'.
  assert (Ey : Py.int (Some (Py.strip (paragraph_content (year_text tc))))
               = Ok (year tc)).
  { unfold year_reads_back, year_text in *.
    destruct (Py.int _) as [y' |]; [| discriminate].
    apply Z.eqb_eq in Cy. now subst. }
  assert (Em : Py.index months
                 (Some (Py.strip (paragraph_content (month_text tc))))
               = Ok (month tc)).
  { unfold month_reads_back, month_text in *.
    destruct (Py.index months _) as [m' |]; [| discriminate].
    apply Z.eqb_eq in Cm. now subst. }
  assert (Ed : (let? ds := digits_of
                             (Some (Py.strip (paragraph_content (day_text tc))))
                in Py.int_of_str ds) = Ok (day tc)).
  { unfold day_reads_back, day_text in *.
    destruct (digits_of _) as [ds |]; [| discriminate]. cbn [rbind].
    destruct (Py.int_of_str ds) as [d' |]; [| discriminate].
    apply Z.eqb_eq in Cd'. now subst. }
  unfold getLastDate. rewrite Hy, Hm, Hd. cbn [rbind]. rewrite Ey.
  cbn [rbind]. rewrite Em. cbn [rbind].
  destruct (digits_of _) as [ds |]; [| discriminate]. cbn [rbind] in Ed |- *.
  rewrite Ed. reflexivity.
Qed.

Lemma written_headings_read_back_witness :
  getLastDate Sample.config Sample.doc = Ok (2020, 1, 15).
Proof.
  exact (written_headings_read_back Sample.config Sample.doc Sample.note_jan15
           (mk_datetime 2020 1 15 13 5 0 737439)
           eq_refl eq_refl eq_refl eq_refl).
Defined.

Lemma index_from_missing (l : list string) (x : string) :
  ~ In x l -> forall i, Py.index_from l x i = Raise ValueError.
Proof.
  induction l as [| y l IH]; intros H i; [reflexivity |].
  cbn [Py.index_from].
  destruct (String.eqb_spec y x) as [-> | _]; [exfalso; apply H; now left |].
  apply IH. intros Hin. apply H. now right.
Qed.

Lemma index_from_found (l : list string) (x : string) :
  In x l -> forall i, exists j, Py.index_from l x i = Ok j.
Proof.
  induction l as [| y l IH]; intros H i; [destruct H |].
  cbn [Py.index_from].
  destruct (String.eqb_spec y x) as [_ | N]; [now exists i |].
  destruct H as [H | H]; [contradiction |]. apply (IH H).
Qed.

(** X6: a heading that is there but cannot be read makes [getLastDate]
    raise [ValueError]: a month heading whose text is not in [months], or,
    with a readable month, a day heading without any digit. *)
Theorem unreadable_heading_raises_ValueError (config : Config) (doc : Document)
    (ys ms : string) (y : Z) :
  getLastHeader doc (YEAR_HEADER_NUM config) = Ok (Some ys) ->
  Py.int_of_str ys = Ok y ->
  getLastHeader doc (MONTH_HEADER_NUM config) = Ok (Some ms) ->
  (~ In ms months -> getLastDate config doc = Raise ValueError)
  /\ (forall ds,
        In ms months ->
        getLastHeader doc (DAY_HEADER_NUM config) = Ok (Some ds) ->
        Py.filter_chars Py.isdigit ds = EmptyString ->
        getLastDate config doc = Raise ValueError).
Proof.
  intros Hy Hi Hm. unfold getLastDate. rewrite Hy, Hm. cbn [Py.int rbind].
  rewrite Hi. cbn [rbind Py.index]. split.
  - intros Hnot. now rewrite (index_from_missing _ _ Hnot).
  - intros ds Hin Hd Hdig. rewrite Hd.
    destruct (index_from_found _ _ Hin 0) as [m ->].
    cbn [rbind digits_of]. rewrite Hdig. reflexivity.
Qed.

Lemma unreadable_heading_raises_ValueError_witness :
  getLastDate Sample.config
    (mk_document [ Sample.heading "1" "2020" 6;
                   Sample.heading "2" "Jan" 10;
                   Sample.heading "3" "Wednesday 15th" 25 ])
  = Raise ValueError
  /\ getLastDate Sample.config
       (mk_document [ Sample.heading "1" "2020" 6;
                      Sample.heading "2" "January" 14;
                      Sample.heading "3" "Wednesday" 24 ])
     = Raise ValueError.
Proof.
  split.
  - apply (proj1 (unreadable_heading_raises_ValueError Sample.config
                    (mk_document [ Sample.heading "1" "2020" 6;
                                   Sample.heading "2" "Jan" 10;
                                   Sample.heading "3" "Wednesday 15th" 25 ])
                    "2020" "Jan" 2020 eq_refl eq_refl eq_refl)).
    cbn. intros H.
    repeat (destruct H as [H | H]; [discriminate H |]). exact H.
  - apply (proj2 (unreadable_heading_raises_ValueError Sample.config
                    (mk_document [ Sample.heading "1" "2020" 6;
                                   Sample.heading "2" "January" 14;
                                   Sample.heading "3" "Wednesday" 24 ])
                    "2020" "January" 2020 eq_refl eq_refl eq_refl)
             "Wednesday").
    + cbn. tauto.
    + reflexivity.
    + reflexivity.
Defined.

(** ** The batch as a whole *)

Lemma appends_snoc (a e : Z) (rq : list Request) (text style : string) :
  appends_from a rq e ->
  appends_from a
    (rq ++ [ insertText (e - 1) (LF ++ text);
             updateParagraphStyle e (e + Py.len text + 1) style ])
    (e + Py.len text + 1).
Proof.
  induction 1 as [e | e t s rest e' _ IH]; cbn [app].
  - constructor. constructor.
  - constructor. exact IH.
Qed.

Lemma addTexts_appends (items : list (string * string)) :
  forall (a e : Z) (rq : list Request),
    appends_from a rq e ->
    appends_from a (snd (addTexts items e rq)) (fst (addTexts items e rq)).
Proof.
  induction items as [| [text style] items IH]; intros a e rq H; [exact H |].
  cbn [addTexts]. unfold addText. apply IH. now apply appends_snoc.
Qed.

Lemma appends_from_le (e e' : Z) (rq : list Request) :
  appends_from e rq e' -> e <= e'.
Proof.
  induction 1 as [e | e t s rest e' _ IH]; [lia |].
  pose proof (len_nonneg t). lia.
Qed.

Lemma appends_from_at_or_after (e e' : Z) (rq : list Request) :
  appends_from e rq e' -> forall e0, e0 <= e -> Forall (at_or_after e0) rq.
Proof.
  induction 1 as [e | e t s rest e' _ IH]; intros e0 He0; [constructor |].
  pose proof (len_nonneg t).
  constructor; [cbn; lia |]. constructor; [cbn; lia |].
  apply IH. lia.
Qed.

Lemma appends_from_ranges (e e' : Z) (rq : list Request) :
  appends_from e rq e' ->
  Forall (fun r => e <= fst r) (style_ranges rq)
  /\ ForallOrdPairs ranges_disjoint (style_ranges rq).
Proof.
  induction 1 as [e | e t s rest e' _ [IH1 IH2]]; cbn [style_ranges].
  - split; constructor.
  - pose proof (len_nonneg t). split.
    + constructor; [cbn; lia |].
      eapply Forall_impl; [| exact IH1]. cbn. intros r Hr. lia.
    + constructor; [| exact IH2].
      eapply Forall_impl; [| exact IH1]. intros r Hr. left. exact Hr.
Qed.

Lemma loadCursor_endIndex (config : Config) (doc : Document) (c : Cursor)
    (e0 : Z) :
  getEndIndex doc = Ok e0 -> loadCursor config doc = Ok c -> endIndex c = e0.
Proof.
  intros He. unfold loadCursor.
  destruct (getLastDate config doc) as [[[y m] d] | e]; [| discriminate].
  cbn [rbind]. rewrite He. cbn [rbind]. intros H. apply Ok_inj in H.
  now subst c.
Qed.

Lemma processNotes_appends (config : Config) (doc : Document) (e0 : Z)
    (notes : list Note) :
  forall (c : Cursor) (rq : list Request) (st' : option Cursor * list Request),
    0 < endIndex c ->
    appends_from e0 rq (endIndex c) ->
    processNotes config doc (Some c, rq) notes = Ok st' ->
    exists c', fst st' = Some c'
               /\ appends_from e0 (snd st') (endIndex c').
Proof.
  induction notes as [| n notes IH]; intros c rq st' Hpos Happ H.
  - cbn in H. apply Ok_inj in H. subst st'. exists c. split; [reflexivity | exact Happ].
  - cbn [processNotes] in H.
    destruct (noteStep config doc (Some c, rq) n) as [st1 | e] eqn:E;
      [| discriminate].
    cbn [rbind] in H.
    destruct (noteStep_inv _ _ _ _ _ _ E) as (c0 & tc & Hc & Htc).
    rewrite (assignCursor_started _ _ _ Hpos) in Hc. apply Ok_inj in Hc.
    subst c0.
    rewrite (noteStep_ok _ _ _ _ _ _ _ (assignCursor_started _ _ _ Hpos) Htc) in E.
    apply Ok_inj in E. subst st1.
    apply IH in H; [exact H | |].
    + cbn [endIndex].
      match goal with |- 0 < fst (addTexts ?i ?e ?r) =>
        pose proof (addTexts_fst_grows i e r) as G end.
      rewrite length_app in G. cbn [entry_items List.length] in G. lia.
    + cbn [endIndex]. now apply addTexts_appends.
Qed.

(** X7: the batch only appends.  Starting at the document's end index,
    every insertion goes right before the running end and the range
    restyled after it starts at the running end and covers the inserted
    text; so no request touches a position before the document's end, the
    restyled ranges are pairwise disjoint, and the end index carried out of
    the loop is the end of the last range. *)
Theorem batch_appends_at_document_end (config : Config) (doc : Document)
    (notes : list Note) (st : option Cursor) (rq : list Request) (e0 : Z) :
  getEndIndex doc = Ok e0 -> 0 <= e0 ->
  buildRequests config doc notes = Ok (st, rq) ->
  exists e',
    appends_from e0 rq e'
    /\ e0 <= e'
    /\ match st with
       | Some c => endIndex c = e'
       | None => notes = []
       end
    /\ Forall (at_or_after e0) rq
    /\ ForallOrdPairs ranges_disjoint (style_ranges rq).
Proof.
  intros He He0 H.
  assert (G : exists e', appends_from e0 rq e'
                         /\ match st with
                            | Some c => endIndex c = e'
                            | None => notes = []
                            end).
  { unfold buildRequests in H. destruct notes as [| n notes].
    - cbn in H. apply Ok_inj in H. apply pair_equal_spec in H as [<- <-].
      exists e0. split; [constructor | reflexivity].
    - cbn [processNotes] in H.
      destruct (noteStep config doc (None, []) n) as [st1 | e] eqn:E;
        [| discriminate].
      cbn [rbind] in H.
      destruct (noteStep_inv _ _ _ _ _ _ E) as (c0 & tc & Hc & Htc).
      rewrite (noteStep_ok _ _ _ _ _ _ _ Hc Htc) in E.
      apply Ok_inj in E. subst st1.
      cbn [assignCursor] in Hc.
      pose proof (loadCursor_endIndex _ _ _ _ He Hc) as Hend.
      apply (processNotes_appends config doc e0) in H.
      + destruct H as (c' & Hfst & Happ). cbn [fst snd] in Hfst, Happ.
        subst st. exists (endIndex c'). split; [exact Happ | reflexivity].
      + cbn [endIndex].
        match goal with |- 0 < fst (addTexts ?i ?e ?r) =>
          pose proof (addTexts_fst_grows i e r) as G end.
        rewrite length_app in G. cbn [entry_items List.length] in G. lia.
      + cbn [endIndex]. apply addTexts_appends. rewrite Hend. constructor. }
  destruct G as (e' & Happ & Hst). exists e'.
  split; [exact Happ |]. split; [exact (appends_from_le _ _ _ Happ) |].
  split; [exact Hst |].
  split; [apply (appends_from_at_or_after _ _ _ Happ); lia |].
  exact (proj2 (appends_from_ranges _ _ _ Happ)).
Qed.

Lemma batch_appends_at_document_end_witness :
  exists e',
    appends_from 51
      (requests_of (buildRequests Sample.config Sample.doc [Sample.note_jan16]))
      e'
    /\ 51 <= e'
    /\ match cursor_of (buildRequests Sample.config Sample.doc
                          [Sample.note_jan16]) with
       | Some c => endIndex c = e'
       | None => [Sample.note_jan16] = []
       end
    /\ Forall (at_or_after 51)
         (requests_of (buildRequests Sample.config Sample.doc
                         [Sample.note_jan16]))
    /\ ForallOrdPairs ranges_disjoint
         (style_ranges
            (requests_of (buildRequests Sample.config Sample.doc
                            [Sample.note_jan16]))).
Proof.
  apply (batch_appends_at_document_end Sample.config Sample.doc
           [Sample.note_jan16]
           (cursor_of (buildRequests Sample.config Sample.doc
                         [Sample.note_jan16]))
           (requests_of (buildRequests Sample.config Sample.doc
                           [Sample.note_jan16]))
           51).
  - reflexivity.
  - lia.
  - vm_compute. reflexivity.
Defined.

(** ** Heading groups in general *)

Lemma introduced_titles_openers (config : Config) (notes : list Note)
    (tcs : list datetime) :
  local_times config notes tcs ->
  forall last,
    introduced_titles last (combine notes tcs)
    = map (fun n => LF ++ title n) (date_openers config last notes).
Proof.
  induction 1 as [| n tc notes tcs Hn _ IH]; intros last; [reflexivity |].
  cbn [combine introduced_titles date_openers].
  rewrite (date_of_local _ _ _ Hn), map_app, IH.
  destruct (date_eqb (ymd tc) last); reflexivity.
Qed.

(** X8: whatever the dates and the order of the notes, a group of date
    headings is written exactly in front of the notes that open a new date,
    those dated differently from the note before them (from the document's
    last date for the first note); notes that follow a note of the same
    date go under its headings. *)
Theorem heading_group_opens_each_new_date (config : Config) (doc : Document)
    (notes : list Note) (st : option Cursor) (rq : list Request)
    (last : Z * Z * Z) (e0 : Z) :
  date_styles_apart config ->
  getLastDate config doc = Ok last -> getEndIndex doc = Ok e0 -> 0 <= e0 ->
  buildRequests config doc notes = Ok (st, rq) ->
  group_titles config false (paragraphs_of rq)
  = map (fun n => LF ++ title n) (date_openers config last notes).
Proof.
  intros Ha Hd He He0 H.
  destruct (buildRequests_journal _ _ _ _ _ _ _ Hd He He0 H) as (tcs & Hl & ->).
  rewrite (proj2 (paragraphs_of_addTexts _ e0 [] paired_nil)).
  cbn [paragraphs_of app]. rewrite (group_titles_journal _ _ Ha).
  now apply introduced_titles_openers.
Qed.

Lemma heading_group_opens_each_new_date_witness :
  group_titles Sample.config false
    (paragraphs_of
       (requests_of
          (buildRequests Sample.config Sample.doc
             [ Sample.note_jan16;
               mk_note "n5" "Tea" "mint"
                       (Sample.jan15 + Sample.day_us + 3600 * 1000000)
                       ["journal"];
               Sample.note_feb15 ])))
  = [LF ++ "Walk"; LF ++ "Call"].
Proof.
  refine (heading_group_opens_each_new_date
            Sample.config Sample.doc
            [ Sample.note_jan16;
              mk_note "n5" "Tea" "mint"
                      (Sample.jan15 + Sample.day_us + 3600 * 1000000)
                      ["journal"];
              Sample.note_feb15 ]
            (cursor_of (buildRequests Sample.config Sample.doc
               [ Sample.note_jan16;
                 mk_note "n5" "Tea" "mint"
                         (Sample.jan15 + Sample.day_us + 3600 * 1000000)
                         ["journal"];
                 Sample.note_feb15 ]))
            _ (2020, 1, 15) 51 _ _ _ _ _).
  - split; reflexivity.
  - reflexivity.
  - reflexivity.
  - lia.
  - vm_compute. reflexivity.
Defined.

(** ** Independent comparisons *)

(** X9: the three date components are compared one by one, so a note
    written in another month of the same year on the same day of the month
    as the date carried forward gets a month heading but no year heading
    and no day heading: the iteration appends the month heading, the title,
    the time and the body. *)
Theorem other_month_same_day_number_gets_no_day_heading (config : Config)
    (doc : Document) (cur : option Cursor) (rq : list Request) (note : Note)
    (c : Cursor) (tc : datetime) :
  assignCursor config doc cur = Ok c ->
  astimezone (created note) (TZ_ADJUSTMENT config) = Ok tc ->
  year tc = lastYear c -> month tc <> lastMonth c -> day tc = lastDay c ->
  let e := endIndex c in
  let e0 := e + Py.len (month_text tc) + 1 in
  let e1 := e0 + Py.len (title note) + 1 in
  let e2 := e1 + Py.len (getTime tc) + 1 in
  let e3 := e2 + Py.len (text note) + 1 in
  noteStep config doc (cur, rq) note
  = Ok (Some (mk_cursor (year tc) (month tc) (day tc) e3),
        (rq ++ [ insertText (e - 1) (LF ++ month_text tc);
                 updateParagraphStyle e e0 ("HEADING_" ++ MONTH_HEADER_NUM config);
                 insertText (e0 - 1) (LF ++ title note);
                 updateParagraphStyle e0 e1 ("HEADING_" ++ TITLE_HEADER_NUM config);
                 insertText (e1 - 1) (LF ++ getTime tc);
                 updateParagraphStyle e1 e2 ("HEADING_" ++ TIME_HEADER_NUM config);
                 insertText (e2 - 1) (LF ++ text note);
                 updateParagraphStyle e2 e3 "NORMAL_TEXT" ])%list).
Proof.
  intros Hc Htc Hy Hm Hd e e0 e1 e2 e3.
  rewrite (noteStep_ok _ _ _ _ _ _ _ Hc Htc).
  unfold date_items, cursor_date, year_items, month_items, day_items.
  rewrite <- Hy, <- Hd, !Z.eqb_refl.
  destruct (Z.eqb_spec (month tc) (lastMonth c)) as [E | _]; [contradiction |].
  cbn [app entry_items addTexts]. unfold addText. cbn [fst snd].
  rewrite <- !app_assoc. reflexivity.
Qed.

Lemma other_month_same_day_number_gets_no_day_heading_witness :
  noteStep Sample.config Sample.doc (None, []) Sample.note_feb15
  = Ok (Some (mk_cursor 2020 2 15 77),
        [ insertText 50 (LF ++ "February");
          updateParagraphStyle 51 60 "HEADING_2";
          insertText 59 (LF ++ "Call");
          updateParagraphStyle 60 65 "HEADING_4";
          insertText 64 (LF ++ "12:00am");
          updateParagraphStyle 65 73 "HEADING_5";
          insertText 72 (LF ++ "mum");
          updateParagraphStyle 73 77 "NORMAL_TEXT" ]).
Proof.
  refine (other_month_same_day_number_gets_no_day_heading
            Sample.config Sample.doc None [] Sample.note_feb15
            (mk_cursor 2020 1 15 51)
            (mk_datetime 2020 2 15 0 0 0 737470)
            eq_refl eq_refl eq_refl _ eq_refl).
  cbn. discriminate.
Defined.

(** ** When the loop returns *)

Lemma assignCursor_loaded (config : Config) (doc : Document) (c : Cursor)
    (cur : option Cursor) :
  loadCursor config doc = Ok c ->
  exists c', assignCursor config doc cur = Ok c'.
Proof.
  intros H. destruct cur as [c1 |]; cbn [assignCursor].
  - destruct (endIndex c1 =? 0); eauto.
  - eauto.
Qed.

Lemma processNotes_returns (config : Config) (doc : Document) (c : Cursor)
    (notes : list Note) :
  loadCursor config doc = Ok c ->
  Forall (has_local_time config) notes ->
  forall st, exists st', processNotes config doc st notes = Ok st'.
Proof.
  intros Hl. induction 1 as [| n notes [tc Htc] _ IH]; intros [cur rq].
  - cbn. eauto.
  - cbn [processNotes].
    destruct (assignCursor_loaded config doc c cur Hl) as [c' Hc].
    rewrite (noteStep_ok _ _ _ _ _ _ _ Hc Htc). cbn [rbind]. apply IH.
Qed.

Lemma processNotes_local_times (config : Config) (doc : Document)
    (notes : list Note) :
  forall st st',
    processNotes config doc st notes = Ok st' ->
    Forall (has_local_time config) notes.
Proof.
  induction notes as [| n notes IH]; intros [cur rq] st' H; [constructor |].
  cbn [processNotes] in H.
  destruct (noteStep config doc (cur, rq) n) as [st1 | e] eqn:E;
    [| discriminate].
  cbn [rbind] in H.
  destruct (noteStep_inv _ _ _ _ _ _ E) as (c0 & tc & _ & Htc).
  constructor; [now exists tc | exact (IH _ _ H)].
Qed.

(** X10: the loop returns a batch exactly when there is no note, or the
    document's last date and end index can be read and the creation time of
    every note can be converted to local time: the month and weekday
    look-ups and [ordinal] never fail inside the loop. *)
Theorem loop_returns_iff_document_and_times_readable (config : Config)
    (doc : Document) (notes : list Note) :
  (exists st rq, buildRequests config doc notes = Ok (st, rq))
  <-> notes = []
      \/ ((exists c, loadCursor config doc = Ok c)
          /\ Forall (has_local_time config) notes).
Proof.
  unfold buildRequests. split.
  - intros (st & rq & H). destruct notes as [| n notes]; [now left |]. right.
    split; [| exact (processNotes_local_times _ _ _ _ _ H)].
    cbn [processNotes] in H.
    destruct (noteStep config doc (None, []) n) as [st1 | e] eqn:E;
      [| discriminate].
    destruct (noteStep_inv _ _ _ _ _ _ E) as (c0 & _ & Hc & _).
    exists c0. exact Hc.
  - intros [-> | [[c Hc] Hall]].
    + exists None, []. reflexivity.
    + destruct (processNotes_returns config doc c notes Hc Hall (None, []))
        as [[st rq] H].
      exists st, rq. exact H.
Qed.



(** ** Whole runs *)

Lemma delete_each_run (notes : list Note) :
  forall w,
    delete_each notes w
    = (Ok tt,
       mk_world (keep_notes w) (local_deleted w ++ map note_id notes)
                (document w) (batches w) (stdout w)
                (calls w ++ map (fun n => CallNoteDelete (note_id n)) notes)).
Proof.
  induction notes as [| n notes IH]; intros w.
  - destruct w. cbn. rewrite !app_nil_r. reflexivity.
  - cbn [delete_each]. unfold note_delete, log_call. rewrite !mbind_run.
    rewrite IH. cbn [keep_notes local_deleted document batches stdout calls map].
    rewrite <- !app_assoc. reflexivity.
Qed.

Lemma deleteNotes_run (f : Faults) (notes : list Note) (w : World) :
  deleteNotes f notes w
  = match sync_fault f with
    | None =>
        (Ok tt,
         mk_world (without_ids (local_deleted w ++ map note_id notes)
                               (keep_notes w))
                  [] (document w) (batches w) (stdout w)
                  (calls w ++ delete_calls notes))
    | Some e =>
        (Raise e,
         mk_world (keep_notes w) (local_deleted w ++ map note_id notes)
                  (document w) (batches w) (stdout w)
                  (calls w ++ delete_calls notes))
    end.
Proof.
  unfold deleteNotes. rewrite mbind_run, delete_each_run.
  unfold keep_sync, log_call, fail_with, delete_calls, without_ids.
  rewrite !mbind_run.
  cbn [keep_notes local_deleted document batches stdout calls].
  destruct (sync_fault f); cbn; rewrite <- !app_assoc; reflexivity.
Qed.

Lemma is_deleted_In (ids : list string) (n : Note) :
  is_deleted ids n = true <-> In (note_id n) ids.
Proof.
  unfold is_deleted. rewrite existsb_exists. split.
  - intros (x & Hin & Heq). apply String.eqb_eq in Heq. now subst.
  - intros Hin. exists (note_id n). split; [exact Hin | apply String.eqb_refl].
Qed.

(** X12: [deleteNotes] marks every note it is given and then syncs.  When
    the sync goes through, the notes left on the service are those whose id
    was not marked, and no mark is pending; when the sync raises, the
    service still holds every note and the marks stay pending.  The
    document is not touched either way. *)
Theorem deleteNotes_removes_the_marked_notes (f : Faults) (notes : list Note)
    (w : World) :
  calls (snd (deleteNotes f notes w)) = (calls w ++ delete_calls notes)%list
  /\ document (snd (deleteNotes f notes w)) = document w
  /\ batches (snd (deleteNotes f notes w)) = batches w
  /\ match sync_fault f with
     | None =>
         fst (deleteNotes f notes w) = Ok tt
         /\ local_deleted (snd (deleteNotes f notes w)) = []
         /\ forall n,
              In n (keep_notes (snd (deleteNotes f notes w)))
              <-> In n (keep_notes w)
                  /\ ~ In (note_id n) (local_deleted w ++ map note_id notes)
     | Some e =>
         fst (deleteNotes f notes w) = Raise e
         /\ keep_notes (snd (deleteNotes f notes w)) = keep_notes w
         /\ local_deleted (snd (deleteNotes f notes w))
            = (local_deleted w ++ map note_id notes)%list
     end.
Proof.
  rewrite deleteNotes_run. destruct (sync_fault f) as [e |]; cbn [fst snd].
  - repeat split; reflexivity.
  - split; [reflexivity |]. split; [reflexivity |]. split; [reflexivity |].
    split; [reflexivity |]. split; [reflexivity |].
    intros n. cbn [keep_notes]. unfold without_ids. rewrite filter_In.
    rewrite negb_true_iff, <- not_true_iff_false, is_deleted_In. reflexivity.
Qed.

Lemma fetch_run (config : Config) (f : Faults) (w : World) :
  config_fault f = None -> login_fault f = None -> find_fault f = None ->
  fetch config f w
  = (Ok (filter (has_label (KEEP_LABEL config)) (keep_notes w)),
     mk_world (keep_notes w) (local_deleted w) (document w) (batches w)
              (stdout w) (calls w ++ fetch_calls config)).
Proof.
  intros H1 H2 H3.
  unfold fetch, keep_login, keep_find, log_call, fail_with.
  rewrite H1, H2, H3. unfold mbind, mret. cbn. rewrite <- !app_assoc.
  reflexivity.
Qed.

Lemma notesToGoogleDoc_run (config : Config) (f : Faults) (notes : list Note)
    (w : World) :
  build_fault f = None -> get_fault f = None ->
  notesToGoogleDoc config f notes w
  = match buildRequests config (document w) notes with
    | Ok st =>
        match batch_fault f with
        | None =>
            (Ok tt,
             mk_world (keep_notes w) (local_deleted w) (document w)
                      (batches w ++ [snd st]) (stdout w)
                      (calls w ++ append_calls config (snd st)))
        | Some e =>
            (Raise e,
             mk_world (keep_notes w) (local_deleted w) (document w)
                      (batches w) (stdout w)
                      (calls w ++ append_calls config (snd st)))
        end
    | Raise e =>
        (Raise e,
         mk_world (keep_notes w) (local_deleted w) (document w) (batches w)
                  (stdout w)
                  (calls w ++ [ CallDocsBuild (CREDENTIALS_FILE config);
                                CallDocsGet (DOCUMENT_ID config) ]))
    end.
Proof.
  intros H1 H2.
  unfold notesToGoogleDoc, docs_build, docs_get, docs_batchUpdate, lift,
    log_call, fail_with.
  rewrite H1, H2. unfold mbind, mret. cbn [document].
  destruct (buildRequests config (document w) notes) as [st | e].
  - unfold append_calls. destruct (batch_fault f); cbn;
      rewrite <- !app_assoc; reflexivity.
  - cbn. rewrite <- !app_assoc. reflexivity.
Qed.

(** What a run does once the notes are fetched and the document is read. *)
Lemma main_after_read (config : Config) (f : Faults) (w : World) :
  read_fault_free f ->
  transferred config w <> [] ->
  main config f w
  = match buildRequests config (document w) (transferred config w) with
    | Ok st =>
        match batch_fault f with
        | None =>
            deleteNotes f (transferred config w)
                        (after_append config (snd st) w)
        | Some e =>
            (Raise e,
             mk_world (keep_notes w) (local_deleted w) (document w)
                      (batches w) (stdout w)
                      (calls w ++ fetch_calls config
                         ++ append_calls config (snd st)))
        end
    | Raise e => (Raise e, after_read config w)
    end.
Proof.
  intros (H1 & H2 & H3 & H4 & H5) Hne.
  rewrite main_run, (fetch_run config f w H1 H2 H3).
  fold (transferred config w).
  destruct (transferred config w) as [| n ns] eqn:E; [contradiction |].
  rewrite mbind_run, (notesToGoogleDoc_run config f (n :: ns) _ H4 H5).
  cbn [keep_notes local_deleted document batches stdout calls].
  unfold after_append, after_read.
  destruct (buildRequests config (document w) (n :: ns)) as [st | e].
  - destruct (batch_fault f); rewrite <- !app_assoc; reflexivity.
  - rewrite <- !app_assoc. reflexivity.
Qed.

(** X13: in a run where nothing fails and the loop returns the batch [rq],
    [main] ends normally; it has written that one batch, made its calls in
    this order: the three that fetch the notes, the three that append, one
    delete per note in order of creation, one sync; and the notes left on
    the service are those whose id was not deleted. *)
Theorem successful_run_appends_then_deletes (config : Config) (f : Faults)
    (w : World) (st : option Cursor) (rq : list Request) :
  fault_free f ->
  transferred config w <> [] ->
  buildRequests config (document w) (transferred config w) = Ok (st, rq) ->
  fst (main config f w) = Ok tt
  /\ batches (snd (main config f w)) = (batches w ++ [rq])%list
  /\ document (snd (main config f w)) = document w
  /\ calls (snd (main config f w))
     = (calls w ++ fetch_calls config ++ append_calls config rq
          ++ delete_calls (transferred config w))%list
  /\ keep_notes (snd (main config f w))
     = without_ids (local_deleted w ++ map note_id (transferred config w))
                   (keep_notes w)
  /\ local_deleted (snd (main config f w)) = []
  /\ stdout (snd (main config f w)) = stdout w.
Proof.
  intros [[Hr Hb] Hs] Hne H.
  rewrite (main_after_read config f w Hr Hne), H, Hb, deleteNotes_run, Hs.
  cbn [fst snd after_append keep_notes local_deleted document batches stdout
       calls].
  rewrite <- !app_assoc. repeat split; reflexivity.
Qed.

Lemma successful_run_appends_then_deletes_witness :
  fst (main Sample.config Sample.no_faults
         (Sample.world [Sample.note_other; Sample.note_feb15;
                        Sample.note_jan16]))
  = Ok tt
  /\ keep_notes (snd (main Sample.config Sample.no_faults
                        (Sample.world [Sample.note_other; Sample.note_feb15;
                                       Sample.note_jan16])))
     = [Sample.note_other]
  /\ filter is_delete_call
       (calls (snd (main Sample.config Sample.no_faults
                      (Sample.world [Sample.note_other; Sample.note_feb15;
                                     Sample.note_jan16]))))
     = [CallNoteDelete "n2"; CallNoteDelete "n3"; CallSync].
Proof.
  pose proof (successful_run_appends_then_deletes
                Sample.config Sample.no_faults
                (Sample.world [Sample.note_other; Sample.note_feb15;
                               Sample.note_jan16])
                (cursor_of (buildRequests Sample.config Sample.doc
                              [Sample.note_jan16; Sample.note_feb15]))
                (requests_of (buildRequests Sample.config Sample.doc
                                [Sample.note_jan16; Sample.note_feb15])))
    as H.
  destruct H as (H1 & _ & _ & H4 & H5 & _).
  - repeat split; reflexivity.
  - discriminate.
  - vm_compute. reflexivity.
  - split; [exact H1 |]. split.
    + rewrite H5. reflexivity.
    + rewrite H4. reflexivity.
Defined.

Lemma NoDup_map_eq {A B} (g : A -> B) (l : list A) (a b : A) :
  NoDup (map g l) -> In a l -> In b l -> g a = g b -> a = b.
Proof.
  induction l as [| x l IH]; intros Hnd Ha Hb Heq; [destruct Ha |].
  cbn [map] in Hnd. inversion Hnd as [| ? ? Hnotin Hnd']; subst.
  destruct Ha as [-> | Ha], Hb as [-> | Hb].
  - reflexivity.
  - exfalso. apply Hnotin. rewrite Heq. now apply in_map.
  - exfalso. apply Hnotin. rewrite <- Heq. now apply in_map.
  - now apply IH.
Qed.

Lemma transferred_In (config : Config) (w : World) (n : Note) :
  In n (transferred config w)
  <-> In n (keep_notes w) /\ has_label (KEEP_LABEL config) n = true.
Proof.
  unfold transferred. rewrite <- filter_In.
  destruct (sorted_from created
              (filter (has_label (KEEP_LABEL config)) (keep_notes w)) []
              (SSorted_nil _)) as (_ & Hperm & _).
  cbn [app] in Hperm. split; intros H.
  - apply (Permutation_in _ (Permutation_sym Hperm)). exact H.
  - apply (Permutation_in _ Hperm). exact H.
Qed.

(** X14: after a run in which nothing fails, no note with the label is
    left on the service; and when the ids of the notes are pairwise
    different and no deletion was pending, the notes left are exactly the
    notes without the label, in their order. *)
Theorem transferred_notes_are_gone (config : Config) (f : Faults)
    (w : World) (st : option Cursor) (rq : list Request) :
  fault_free f ->
  transferred config w <> [] ->
  buildRequests config (document w) (transferred config w) = Ok (st, rq) ->
  (forall n, In n (keep_notes (snd (main config f w))) ->
             In n (keep_notes w)
             /\ has_label (KEEP_LABEL config) n = false)
  /\ (local_deleted w = [] -> NoDup (map note_id (keep_notes w)) ->
      keep_notes (snd (main config f w))
      = filter (fun n => negb (has_label (KEEP_LABEL config) n))
               (keep_notes w)).
Proof.
  intros [[Hr Hb] Hs] Hne H.
  rewrite (main_after_read config f w Hr Hne), H, Hb, deleteNotes_run, Hs.
  cbn [fst snd after_append keep_notes local_deleted]. unfold without_ids.
  split.
  - intros n Hin. apply filter_In in Hin as [Hin Hdel]. split; [exact Hin |].
    destruct (has_label (KEEP_LABEL config) n) eqn:El; [| reflexivity].
    exfalso. apply negb_true_iff in Hdel.
    apply (proj2 (not_true_iff_false _) Hdel). apply is_deleted_In.
    apply in_or_app. right. apply in_map. apply transferred_In. now split.
  - intros Hld Hnd. rewrite Hld. cbn [app]. apply filter_ext_in.
    intros n Hin. f_equal.
    destruct (has_label (KEEP_LABEL config) n) eqn:El.
    + apply is_deleted_In. apply in_map. apply transferred_In. now split.
    + apply not_true_iff_false. intros Hdel. apply is_deleted_In in Hdel.
      apply in_map_iff in Hdel as (m & Hid & Hm).
      apply transferred_In in Hm as [Hm Hlab].
      rewrite (NoDup_map_eq note_id _ m n Hnd Hm Hin Hid) in Hlab. congruence.
Qed.

Lemma transferred_notes_are_gone_witness :
  keep_notes (snd (main Sample.config Sample.no_faults
                     (Sample.world [Sample.note_feb15; Sample.note_other;
                                    Sample.note_jan16])))
  = [Sample.note_other].
Proof.
  refine (proj2 (transferred_notes_are_gone
                   Sample.config Sample.no_faults
                   (Sample.world [Sample.note_feb15; Sample.note_other;
                                  Sample.note_jan16])
                   (cursor_of (buildRequests Sample.config Sample.doc
                                 [Sample.note_jan16; Sample.note_feb15]))
                   (requests_of (buildRequests Sample.config Sample.doc
                                   [Sample.note_jan16; Sample.note_feb15]))
                   _ _ _) eq_refl _).
  - repeat split; reflexivity.
  - discriminate.
  - vm_compute. reflexivity.
  - cbn. repeat (constructor; [not_in_list |]). constructor.
Defined.

(** X15: when the batch is written and the sync then raises, the run
    raises that error with the batch applied and every note still on the
    service: the next run transfers the same notes once more. *)
Theorem failed_sync_leaves_written_notes (config : Config) (f : Faults)
    (w : World) (st : option Cursor) (rq : list Request) (e : exn) :
  append_fault_free f -> sync_fault f = Some e ->
  transferred config w <> [] ->
  buildRequests config (document w) (transferred config w) = Ok (st, rq) ->
  fst (main config f w) = Raise e
  /\ batches (snd (main config f w)) = (batches w ++ [rq])%list
  /\ keep_notes (snd (main config f w)) = keep_notes w
  /\ transferred config (snd (main config f w)) = transferred config w.
Proof.
  intros [Hr Hb] Hs Hne H.
  rewrite (main_after_read config f w Hr Hne), H, Hb, deleteNotes_run, Hs.
  unfold transferred.
  cbn [fst snd after_append keep_notes local_deleted batches].
  repeat split; reflexivity.
Qed.

Lemma failed_sync_leaves_written_notes_witness :
  fst (main Sample.config
         (mk_faults None None None None None None
                    (Some (ServiceError "SyncException")))
         (Sample.world [Sample.note_jan16]))
  = Raise (ServiceError "SyncException")
  /\ keep_notes (snd (main Sample.config
                        (mk_faults None None None None None None
                                   (Some (ServiceError "SyncException")))
                        (Sample.world [Sample.note_jan16])))
     = [Sample.note_jan16].
Proof.
  pose proof (failed_sync_leaves_written_notes
                Sample.config
                (mk_faults None None None None None None
                           (Some (ServiceError "SyncException")))
                (Sample.world [Sample.note_jan16])
                (cursor_of (buildRequests Sample.config Sample.doc
                              [Sample.note_jan16]))
                (requests_of (buildRequests Sample.config Sample.doc
                                [Sample.note_jan16]))
                (ServiceError "SyncException")) as H.
  destruct H as (H1 & _ & H3 & _).
  - repeat split; reflexivity.
  - reflexivity.
  - discriminate.
  - vm_compute. reflexivity.
  - split; [exact H1 | exact H3].
Defined.

(** X16: when the loop raises, because the document's last date or end
    index cannot be read or a creation time cannot be converted, the run
    raises that error right after reading the document: no batch is sent,
    no note is deleted, and notes, marks, document and applied batches are
    as before. *)
Theorem failed_loop_changes_nothing (config : Config) (f : Faults)
    (w : World) (e : exn) :
  read_fault_free f ->
  transferred config w <> [] ->
  buildRequests config (document w) (transferred config w) = Raise e ->
  fst (main config f w) = Raise e
  /\ keep_notes (snd (main config f w)) = keep_notes w
  /\ local_deleted (snd (main config f w)) = local_deleted w
  /\ document (snd (main config f w)) = document w
  /\ batches (snd (main config f w)) = batches w
  /\ calls (snd (main config f w))
     = (calls w ++ fetch_calls config
          ++ [ CallDocsBuild (CREDENTIALS_FILE config);
               CallDocsGet (DOCUMENT_ID config) ])%list.
Proof.
  intros Hr Hne H.
  rewrite (main_after_read config f w Hr Hne), H.
  repeat split; reflexivity.
Qed.

Lemma failed_loop_changes_nothing_witness :
  fst (main Sample.config Sample.no_faults
         (mk_world [Sample.note_jan16] [] Sample.blank_doc [] [] []))
  = Raise TypeError
  /\ batches (snd (main Sample.config Sample.no_faults
                     (mk_world [Sample.note_jan16] [] Sample.blank_doc
                               [] [] [])))
     = []
  /\ keep_notes (snd (main Sample.config Sample.no_faults
                        (mk_world [Sample.note_jan16] [] Sample.blank_doc
                                  [] [] [])))
     = [Sample.note_jan16].
Proof.
  pose proof (failed_loop_changes_nothing
                Sample.config Sample.no_faults
                (mk_world [Sample.note_jan16] [] Sample.blank_doc [] [] [])
                TypeError) as H.
  destruct H as (H1 & H2 & _ & _ & H5 & _).
  - repeat split; reflexivity.
  - discriminate.
  - vm_compute. reflexivity.
  - split; [exact H1 |]. split; [exact H5 | exact H2].
Defined.

Lemma fetch_calls_only (config : Config) (f : Faults) (w : World) :
  exists new,
    calls (snd (fetch config f w)) = (calls w ++ new)%list
    /\ filter is_write_call new = []
    /\ batches (snd (fetch config f w)) = batches w
    /\ document (snd (fetch config f w)) = document w.
Proof.
  destruct (fetch_effect config f w)
    as (_ & _ & Hd & Hb & _ & new & Hc & _ & Hw & _).
  exists new. repeat split; assumption.
Qed.

Lemma notesToGoogleDoc_writes_once (config : Config) (f : Faults)
    (notes : list Note) (w : World) :
  exists new,
    calls (snd (notesToGoogleDoc config f notes w)) = (calls w ++ new)%list
    /\ (List.length (filter is_write_call new) <= 1)%nat
    /\ (batches (snd (notesToGoogleDoc config f notes w)) = batches w
        \/ exists rq,
             fst (notesToGoogleDoc config f notes w) = Ok tt
             /\ batches (snd (notesToGoogleDoc config f notes w))
                = (batches w ++ [rq])%list)
    /\ document (snd (notesToGoogleDoc config f notes w)) = document w.
Proof.
  unfold notesToGoogleDoc, docs_build, docs_get, docs_batchUpdate, lift,
    log_call, fail_with, mbind, mret, mraise.
  destruct (build_fault f); cbn;
    [eexists; split; [reflexivity |]; cbn; repeat split; auto |].
  destruct (get_fault f); cbn;
    [eexists; split; [rewrite <- app_assoc; reflexivity |]; cbn;
     repeat split; auto |].
  destruct (buildRequests config (document w) notes) as [[st rq] | e]; cbn;
    [| eexists; split; [rewrite <- app_assoc; reflexivity |]; cbn;
       repeat split; auto].
  destruct (batch_fault f); cbn;
    (eexists; split; [rewrite <- !app_assoc; reflexivity |]); cbn;
    (split; [lia |]); (split; [| reflexivity]).
  - now left.
  - right. exists rq. split; reflexivity.
Qed.

(** X17: whatever fails or does not fail, a run sends at most one batch to
    the document service, the applied batches grow by at most one batch,
    and the document is changed in no other way. *)
Theorem at_most_one_batch_per_run (config : Config) (f : Faults) (w : World) :
  exists new,
    calls (snd (main config f w)) = (calls w ++ new)%list
    /\ (List.length (filter is_write_call new) <= 1)%nat
    /\ (batches (snd (main config f w)) = batches w
        \/ exists rq, batches (snd (main config f w)) = (batches w ++ [rq])%list)
    /\ document (snd (main config f w)) = document w.
Proof.
  rewrite main_run.
  destruct (fetch_calls_only config f w) as (new1 & Hc1 & Hw1 & Hb1 & Hd1).
  destruct (fetch config f w) as [[found | e] w1]; cbn [fst snd] in *;
    [| exists new1; rewrite Hw1; cbn; repeat split; auto].
  destruct (Py.sorted created found) as [| n ns];
    [exists new1; rewrite Hw1; cbn; repeat split; auto |].
  rewrite mbind_run.
  destruct (notesToGoogleDoc_writes_once config f (n :: ns) w1)
    as (new2 & Hc2 & Hw2 & Hb2 & Hd2).
  destruct (notesToGoogleDoc config f (n :: ns) w1) as [[[] | e] w2];
    cbn [fst snd] in *.
  - destruct (deleteNotes_effect f (n :: ns) w2)
      as (Hb3 & Hd3 & new3 & Hc3 & Hw3).
    exists (new1 ++ new2 ++ new3)%list.
    split; [rewrite Hc3, Hc2, Hc1, <- !app_assoc; reflexivity |].
    split; [rewrite !filter_app, Hw1, Hw3, app_nil_r; exact Hw2 |].
    split; [| congruence].
    rewrite Hb3, <- Hb1.
    destruct Hb2 as [Hb2 | (rq & _ & Hb2)]; [now left | right; now exists rq].
  - exists (new1 ++ new2)%list.
    split; [rewrite Hc2, Hc1, <- !app_assoc; reflexivity |].
    split; [rewrite filter_app, Hw1; exact Hw2 |].
    split; [| congruence].
    rewrite <- Hb1.
    destruct Hb2 as [Hb2 | (rq & Hok & _)]; [now left | discriminate].
Qed.

(** ** What every note contributes *)

Lemma heading_is_not_normal_text (num : string) :
  String.eqb ("HEADING_" ++ num) "NORMAL_TEXT" = false.
Proof. reflexivity. Qed.

(** Date headings are no plain text, and there are at most three. *)
Lemma date_items_no_body (config : Config) (last : Z * Z * Z) (tc : datetime) :
  filter (fun p => String.eqb (fst p) "NORMAL_TEXT")
         (map paragraph_of_item (date_items config last tc)) = []
  /\ (List.length (date_items config last tc) <= 3)%nat.
Proof.
  destruct last as [[y m] d].
  unfold date_items, year_items, month_items, day_items.
  destruct (year tc =? y), (month tc =? m), (day tc =? d);
    cbn [List.app map filter paragraph_of_item fst snd List.length];
    rewrite ?heading_is_not_normal_text; split; (reflexivity || lia).
Qed.

Lemma length_addTexts (items : list (string * string)) :
  forall e rq,
    List.length (snd (addTexts items e rq))
    = (List.length rq + 2 * List.length items)%nat.
Proof.
  induction items as [| [t s] items IH]; intros e rq; cbn [addTexts].
  - cbn. lia.
  - unfold addText. rewrite IH, length_app. cbn [List.length]. lia.
Qed.

Lemma processNotes_contributions (config : Config) (doc : Document)
    (notes : list Note) :
  forall cur rq cur' rq',
    paired rq ->
    processNotes config doc (cur, rq) notes = Ok (cur', rq') ->
    paired rq'
    /\ filter (fun p => String.eqb (fst p) "NORMAL_TEXT") (paragraphs_of rq')
       = List.app
           (filter (fun p => String.eqb (fst p) "NORMAL_TEXT") (paragraphs_of rq))
           (map (fun n => ("NORMAL_TEXT", LF ++ text n)) notes)
    /\ (List.length rq + 6 * List.length notes <= List.length rq'
        <= List.length rq + 12 * List.length notes)%nat.
Proof.
  induction notes as [| n notes IH]; intros cur rq cur' rq' Hp H.
  - cbn in H. apply Ok_inj in H. apply pair_equal_spec in H as [_ <-].
    cbn. rewrite app_nil_r. repeat split; [exact Hp | lia | lia].
  - cbn [processNotes] in H.
    destruct (noteStep config doc (cur, rq) n) as [[cur1 rq1] | e] eqn:E;
      [| discriminate].
    cbn [rbind] in H.
    destruct (noteStep_inv _ _ _ _ _ _ E) as (c0 & tc & Hc & Htc).
    rewrite (noteStep_ok _ _ _ _ _ _ _ Hc Htc) in E.
    apply Ok_inj in E. apply pair_equal_spec in E as [_ <-].
    destruct (paragraphs_of_addTexts
                (date_items config (cursor_date c0) tc ++ entry_items config tc n)
                (endIndex c0) rq Hp) as [Hp1 Hpar].
    destruct (IH _ _ _ _ Hp1 H) as (Hp' & Hf & Hlen).
    destruct (date_items_no_body config (cursor_date c0) tc) as [Hnb Hle].
    split; [exact Hp' |]. split.
    + rewrite Hf, Hpar, map_app, !filter_app, Hnb.
      cbn [entry_items map filter paragraph_of_item fst snd app List.app].
      rewrite !heading_is_not_normal_text. cbn [String.eqb Ascii.eqb].
      rewrite <- !app_assoc. reflexivity.
    + rewrite length_addTexts, length_app in Hlen.
      cbn [entry_items List.length] in Hlen |- *. lia.
Qed.

(** X18: every note's text is written exactly once as a plain-text
    paragraph, in the order of the notes, and nothing else is written as
    plain text; the batch is made of insert/restyle pairs, between three and
    six of them for each note. *)
Theorem every_note_body_is_written_once (config : Config) (doc : Document)
    (notes : list Note) (st : option Cursor) (rq : list Request) :
  buildRequests config doc notes = Ok (st, rq) ->
  paired rq
  /\ filter (fun p => String.eqb (fst p) "NORMAL_TEXT") (paragraphs_of rq)
     = map (fun n => ("NORMAL_TEXT", LF ++ text n)) notes
  /\ (6 * List.length notes <= List.length rq <= 12 * List.length notes)%nat.
Proof.
  intros H.
  destruct (processNotes_contributions config doc notes None [] st rq
              paired_nil H) as (Hp & Hf & Hlen).
  cbn [paragraphs_of filter app List.length] in Hf, Hlen.
  repeat split; [exact Hp | exact Hf | lia | lia].
Qed.

Lemma every_note_body_is_written_once_witness :
  filter (fun p => String.eqb (fst p) "NORMAL_TEXT")
    (paragraphs_of
       (requests_of (buildRequests Sample.config Sample.doc
                       [Sample.note_jan15; Sample.note_jan16])))
  = [("NORMAL_TEXT", LF ++ "soup"); ("NORMAL_TEXT", LF ++ "park")].
Proof.
  refine (proj1 (proj2 (every_note_body_is_written_once
                          Sample.config Sample.doc
                          [Sample.note_jan15; Sample.note_jan16]
                          (cursor_of (buildRequests Sample.config Sample.doc
                             [Sample.note_jan15; Sample.note_jan16]))
                          _ _))).
  vm_compute. reflexivity.
Defined.
